(** * libdex/OptInvocation.c: cache file names and the skeletal opt header

    A shallow embedding of [dexOptGenerateCacheFileName] and
    [dexOptCreateEmptyHeader], and the properties of both.

    C strings are [string]s holding the characters before the terminating
    NUL.  A [char] array of capacity [cap] can hold a string [s] when
    [length s + 1 <= cap]; a library call that would store past the end of
    the array has undefined behaviour in C and is reported here as the
    outcome [Overrun]. *)

From Stdlib Require Import Bool Arith Lia List ZArith NArith.
From Stdlib Require Import Ascii String.
From Stdlib Require Strings.Byte.
Import ListNotations.

Set Implicit Arguments.

Local Open Scope string_scope.

(** ** Outcomes of a run *)

Inductive outcome (A : Type) : Type :=
| Normal (a : A)     (* control reaches the next statement with [a] *)
| ReturnNull         (* the early [return NULL] after a failed getcwd *)
| Overrun.           (* a store past the end of a stack buffer *)

Arguments ReturnNull {A}.
Arguments Overrun {A}.

Definition bind {A B : Type} (m : outcome A) (k : A -> outcome B) : outcome B :=
  match m with
  | Normal a => k a
  | ReturnNull => ReturnNull
  | Overrun => Overrun
  end.

Notation "x <- m ;; k" := (bind m (fun x => k))
  (at level 61, m at next level, right associativity).

(** ** The C library calls the function makes *)

Module LibC.

(** The first [n] characters of [s] (all of [s] when it is shorter). *)
Fixpoint take (n : nat) (s : string) : string :=
  match n, s with
  | S n', String c s' => String c (take n' s')
  | _, _ => EmptyString
  end.

(** [strncat(dest, src, n)] on an array of [cap] chars: at most [n]
    characters of [src] are appended to [dest], then a NUL.  [n] bounds
    what is copied, not the room left in [dest]. *)
Definition strncat (cap : nat) (dest src : string) (n : nat) : outcome string :=
  let appended := take n src in
  if (length dest + length appended + 1 <=? cap)%nat
  then Normal (dest ++ appended)
  else Overrun.

(** [snprintf(buf, size, "%s/%s", a, b)]: the formatted text cut to
    [size - 1] characters, then a NUL. *)
Definition snprintf_s_slash_s (size : nat) (a b : string) : string :=
  take (size - 1) (a ++ "/" ++ b).

(** [strncmp(a, b, n)] as far as the caller looks at it: [true] when the
    call returns 0.  The comparison stops after [n] characters or at a NUL
    reached in both strings. *)
Fixpoint strncmp_is_0 (a b : string) (n : nat) : bool :=
  match n with
  | 0 => true
  | S n' =>
      match a, b with
      | EmptyString, EmptyString => true
      | String x a', String y b' =>
          if Ascii.eqb x y then strncmp_is_0 a' b' n' else false
      | _, _ => false
      end
  end.

(** [strcmp(a, b) == 0]. *)
Definition strcmp_is_0 (a b : string) : bool := String.eqb a b.

End LibC.

(** ** The environment of a call

    What the function reads from outside: the process environment, the
    system properties, the working directory, whether the final [strdup]
    can allocate, and the indeterminate content of the stack slot of the
    local [dexRoot], which line 54 declares without an initialiser
    ([None] is a null pointer, [Some r] a pointer to the text [r]). *)

Record env : Type := {
  getenv        : string -> option string;
  property      : string -> option string;
  cwd           : option string;
  malloc_ok     : bool;
  dexRoot_slot  : option string
}.

(** [getcwd(buf, size)]: the working directory when it is known and fits
    in [size] bytes with its NUL, a null pointer otherwise. *)
Definition getcwd (e : env) (size : nat) : option string :=
  match cwd e with
  | Some d => if (length d + 1 <=? size)%nat then Some d else None
  | None => None
  end.

(** Modelled from the spec: [property_get] of cutils, which is not part of
    the sources at hand.  The value stored under the key, or the default
    when the key is absent. *)
Definition property_get (e : env) (key default : string) : string :=
  match property e key with
  | Some v => v
  | None => default
  end.

(** [strdup]: a copy of the text, or a null pointer when allocation fails. *)
Definition strdup (e : env) (s : string) : option string :=
  if malloc_ok e then Some s else None.

(** ** dexOptGenerateCacheFileName *)

Definition sizeof_nameBuf : nat := 512.
Definition kBufLen : nat := sizeof_nameBuf - 1.
Arguments sizeof_nameBuf : simpl never.
Arguments kBufLen : simpl never.
Definition kDexCachePath : string := "dalvik-cache".
Definition kClassesDex : string := "classes.dex".

Definition slash : ascii := "/"%char.
Definition at_sign : ascii := "@"%char.

(** The loop of lines 93-98, started at [cp]. *)
Fixpoint flatten_from (cp : string) : string :=
  match cp with
  | EmptyString => EmptyString
  | String c rest =>
      String (if Ascii.eqb c slash then at_sign else c) (flatten_from rest)
  end.

(** Lines 92-98: the loop starts at [absoluteFile + 1].  On an empty
    buffer that address is past the terminator. *)
Definition flatten (absoluteFile : string) : outcome string :=
  match absoluteFile with
  | EmptyString => Overrun
  | String c0 rest => Normal (String c0 (flatten_from rest))
  end.

(** [fileName[0] != '/'] *)
Definition is_relative (fileName : string) : bool :=
  match fileName with
  | String c _ => negb (Ascii.eqb c slash)
  | EmptyString => true
  end.

(** Lines 64-87: the text assembled in [absoluteFile]. *)
Definition assemble (e : env) (fileName : string)
    (subFileName : option string) : outcome string :=
  let cap := sizeof_nameBuf in
  absoluteFile <-
    (if is_relative fileName then
       match getcwd e kBufLen with
       | None => ReturnNull
       | Some d => LibC.strncat cap d "/" kBufLen
       end
     else Normal EmptyString) ;;
  absoluteFile <- LibC.strncat cap absoluteFile fileName kBufLen ;;
  match subFileName with
  | Some sub =>
      absoluteFile <- LibC.strncat cap absoluteFile "/" kBufLen ;;
      LibC.strncat cap absoluteFile sub kBufLen
  | None => Normal absoluteFile
  end.

(** Lines 64-98: the flattened absolute path left in [absoluteFile]. *)
Definition absoluteFile_of (e : env) (fileName : string)
    (subFileName : option string) : outcome string :=
  absoluteFile <- assemble e fileName subFileName ;;
  flatten absoluteFile.

Definition or_default (v : option string) (d : string) : string :=
  match v with
  | Some s => s
  | None => d
  end.

Definition cacheRoot_of (e : env) : string := or_default (getenv e "ANDROID_CACHE") "/cache".
Definition dataRoot_of (e : env) : string := or_default (getenv e "ANDROID_DATA") "/data".
Definition systemRoot_of (e : env) : string := or_default (getenv e "ANDROID_ROOT") "/system".

(** Lines 104-133: the value of [dexRoot] when line 135 reads it.
    [dataRoot] is computed and never used; the first read of [dexRoot]
    (line 118) sees the stack slot. *)
Definition dexRoot_of (e : env) (absoluteFile : string) : string :=
  let cacheRoot := cacheRoot_of e in
  let dataRoot := dataRoot_of e in
  let systemRoot := systemRoot_of e in
  let dexRoot := or_default (dexRoot_slot e) "/data" in
  let dexRoot :=
    if LibC.strncmp_is_0 absoluteFile systemRoot (length systemRoot) then
      let dexoptDataOnly := property_get e "dalvik.vm.dexopt-data-only" "" in
      if negb (LibC.strcmp_is_0 dexoptDataOnly "1") then cacheRoot else dexRoot
    else dexRoot in
  let dexoptCacheOnly := property_get e "dalvik.vm.dexopt-cache-only" "" in
  if LibC.strcmp_is_0 dexoptCacheOnly "1" then cacheRoot else dexRoot.

(** Lines 135-142. *)
Definition compose (e : env) (absoluteFile : string) : outcome (option string) :=
  let dexRoot := dexRoot_of e absoluteFile in
  let nameBuf := LibC.snprintf_s_slash_s kBufLen dexRoot kDexCachePath in
  nameBuf <- LibC.strncat sizeof_nameBuf nameBuf absoluteFile kBufLen ;;
  Normal (strdup e nameBuf).

(** The whole function: [Normal (Some s)] returns the string [s],
    [Normal None] returns the null pointer of a failed [strdup], and
    [ReturnNull] is the [return NULL] of line 73. *)
Definition dexOptGenerateCacheFileName (e : env) (fileName : string)
    (subFileName : option string) : outcome (option string) :=
  absoluteFile <- absoluteFile_of e fileName subFileName ;;
  compose e absoluteFile.

Definition returns_null (r : outcome (option string)) : Prop :=
  r = ReturnNull \/ r = Normal None.

(** An environment with nothing set: no variables, no properties. *)
Definition plain_env (d : option string) (slot : option string) : env :=
  {| getenv := fun _ => None;
     property := fun _ => None;
     cwd := d;
     malloc_ok := true;
     dexRoot_slot := slot |}.

(** Environments that differ in one place. *)
Definition with_cwd (e : env) (d : option string) : env :=
  {| getenv := getenv e; property := property e; cwd := d;
     malloc_ok := malloc_ok e; dexRoot_slot := dexRoot_slot e |}.

Definition with_getenv (e : env) (key value : string) : env :=
  {| getenv := fun k => if String.eqb k key then Some value else getenv e k;
     property := property e; cwd := cwd e;
     malloc_ok := malloc_ok e; dexRoot_slot := dexRoot_slot e |}.

Definition with_property (e : env) (key value : string) : env :=
  {| getenv := getenv e;
     property := fun k => if String.eqb k key then Some value else property e k;
     cwd := cwd e; malloc_ok := malloc_ok e; dexRoot_slot := dexRoot_slot e |}.

(** Does the character occur in the string? *)
Fixpoint occurs (c : ascii) (s : string) : bool :=
  match s with
  | EmptyString => false
  | String x rest => Ascii.eqb x c || occurs c rest
  end.

Definition starts_with_slash (s : string) : bool :=
  match s with
  | String c _ => Ascii.eqb c slash
  | EmptyString => false
  end.

(** A string of [n] copies of one character, for long inputs. *)
Fixpoint replicate (n : nat) (c : ascii) : string :=
  match n with
  | 0 => EmptyString
  | S n' => String c (replicate n' c)
  end.

(** An environment whose cache root is a separator and 599 letters, with
    the cache-only property set. *)
Definition long_cache_env : env :=
  with_getenv
    (with_property (plain_env None None) "dalvik.vm.dexopt-cache-only" "1")
    "ANDROID_CACHE" (String slash (replicate 599 "c")).

(** What lines 84-87 append behind the file name: a separator and the
    entry name, or nothing. *)
Definition entry_suffix (subFileName : option string) : string :=
  match subFileName with
  | Some sub => "/" ++ sub
  | None => ""
  end.

(** The text of line 135 as [snprintf] leaves it in [nameBuf]. *)
Definition nameBuf_head (e : env) (absoluteFile : string) : string :=
  LibC.snprintf_s_slash_s kBufLen (dexRoot_of e absoluteFile) kDexCachePath.

(** ** dexOptCreateEmptyHeader *)

Module Header.

Import Strings.Byte.

Local Close Scope string_scope.
Local Open Scope list_scope.
Local Open Scope nat_scope.

(** The descriptor as the function sees it: the offset [lseek] reports,
    the bytes of the file, [errno], and the buffers handed to [write] so
    far, oldest first. *)
Record fd_state : Type := {
  position    : nat;
  contents    : list byte;
  errno       : Z;
  write_calls : list (list byte)
}.

(** What one call of [write] does, chosen by the system: it transfers
    some bytes (no more than asked for) or fails with an error number. *)
Inductive write_result : Type :=
| Transfers (n : nat)
| Fails (e : Z).

Inductive exit : Type :=
| Aborted              (* an [assert] failed *)
| Returned (v : Z).

Definition write_at (pos : nat) (data file : list byte) : list byte :=
  firstn pos (file ++ repeat x00 (pos - List.length file))
  ++ data ++ skipn (pos + List.length data) file.

(** [write(fd, buf, count)] with [count = length buf]: the value returned
    and the state after.  A transfer leaves [errno] alone. *)
Definition write (w : write_result) (st : fd_state) (buf : list byte)
  : Z * fd_state :=
  match w with
  | Transfers n =>
      let k := Nat.min n (List.length buf) in
      (Z.of_nat k,
       {| position := position st + k;
          contents := write_at (position st) (firstn k buf) (contents st);
          errno := errno st;
          write_calls := write_calls st ++ [buf] |})
  | Fails e =>
      ((-1)%Z,
       {| position := position st;
          contents := contents st;
          errno := e;
          write_calls := write_calls st ++ [buf] |})
  end.

Definition byte_of_N (n : N) : byte :=
  match Byte.of_N (n mod 256) with
  | Some b => b
  | None => x00
  end.

Section Layout.

(** [DexOptHeader] is declared in DexFile.h, which is not part of the
    sources at hand: its size, the offset of its [u4] field
    [dexOffset] and the byte order of the machine are taken as given. *)
Variable sizeof_optHdr : nat.
Variable offsetof_dexOffset : nat.
Variable big_endian : bool.

(** The four bytes of a [u4] in memory. *)
Definition u4_bytes (v : N) : list byte :=
  let le := [byte_of_N v; byte_of_N (v / 256);
             byte_of_N (v / 65536); byte_of_N (v / 16777216)] in
  if big_endian then rev le else le.

(** The [u4] that a run of bytes in memory holds. *)
Definition u4_value (bs : list byte) : N :=
  fold_right (fun b acc => Byte.to_N b + 256 * acc)%N 0%N
             (if big_endian then rev bs else bs).

(** [memset(&optHdr, 0xff, sizeof(optHdr))] *)
Definition memset_ff : list byte := repeat xff sizeof_optHdr.

(** [optHdr.dexOffset = v]: four bytes stored at the field's offset. *)
Definition store_dexOffset (optHdr : list byte) (v : N) : list byte :=
  firstn offsetof_dexOffset optHdr
  ++ u4_bytes (v mod 2 ^ 32)
  ++ skipn (offsetof_dexOffset + 4) optHdr.

(** The four bytes of the field [dexOffset] of a record. *)
Definition load_dexOffset (optHdr : list byte) : N :=
  u4_value (firstn 4 (skipn offsetof_dexOffset optHdr)).

(** The record the function builds (lines 170-171). *)
Definition optHdr_built : list byte :=
  store_dexOffset memset_ff (N.of_nat sizeof_optHdr).

Definition dexOptCreateEmptyHeader (w : write_result) (st : fd_state)
  : exit * fd_state :=
  if negb (position st =? 0) then (Aborted, st)
  else if negb (N.land (N.of_nat sizeof_optHdr) 7 =? 0)%N then (Aborted, st)
  else
    let optHdr := optHdr_built in
    let (actual, st') := write w st optHdr in
    if negb (actual =? Z.of_nat sizeof_optHdr)%Z then
      let err := if (errno st' =? 0)%Z then (-1)%Z else errno st' in
      (Returned (errno st'), st')
    else (Returned 0%Z, st').

End Layout.

(** A descriptor on a new, empty file, with no error pending. *)
Definition fresh : fd_state :=
  {| position := 0; contents := []; errno := 0%Z; write_calls := [] |}.

(** A descriptor at the start of a file that already holds 48 bytes. *)
Definition file_of_48_bytes : fd_state :=
  {| position := 0; contents := repeat x00 48; errno := 0%Z; write_calls := [] |}.

End Header.

(** * Properties of dexOptGenerateCacheFileName *)

Section StringFacts.

Lemma take_length (n : nat) (s : string) :
  length (LibC.take n s) = Nat.min n (length s).
Proof.
  revert s; induction n as [|n IH]; intros [|c s]; simpl; auto.
Qed.

Lemma take_all (n : nat) (s : string) :
  (length s <= n)%nat -> LibC.take n s = s.
Proof.
  revert s; induction n as [|n IH]; intros [|c s]; simpl; intros H;
    try reflexivity; try lia.
  now rewrite IH by lia.
Qed.

Lemma take_cons (n : nat) (c : ascii) (s : string) :
  LibC.take (S n) (String c s) = String c (LibC.take n s).
Proof. reflexivity. Qed.

Lemma append_length (a b : string) :
  length (a ++ b) = (length a + length b)%nat.
Proof. induction a as [|c a IH]; simpl; auto. Qed.

Lemma append_assoc (a b c : string) : (a ++ b) ++ c = a ++ (b ++ c).
Proof. induction a as [|x a IH]; simpl; [reflexivity | now rewrite IH]. Qed.

Lemma append_empty_r (a : string) : a ++ "" = a.
Proof. induction a as [|x a IH]; simpl; [reflexivity | now rewrite IH]. Qed.

Lemma flatten_from_no_slash (s : string) :
  occurs slash (flatten_from s) = false.
Proof.
  induction s as [|c s IH]; simpl; [reflexivity|].
  rewrite IH, orb_false_r.
  destruct (Ascii.eqb c slash) eqn:E; [reflexivity | exact E].
Qed.

Lemma flatten_from_id (s : string) :
  occurs slash s = false -> flatten_from s = s.
Proof.
  induction s as [|c s IH]; simpl; [reflexivity|].
  intros H; apply orb_false_elim in H as [Hc Hs].
  now rewrite Hc, IH.
Qed.

Lemma flatten_from_length (s : string) :
  length (flatten_from s) = length s.
Proof. induction s as [|c s IH]; simpl; auto. Qed.

Lemma starts_with_slash_inv (s : string) :
  starts_with_slash s = true -> exists rest, s = String slash rest.
Proof.
  destruct s as [|c s]; simpl; [discriminate|].
  intros H; apply Ascii.eqb_eq in H; subst; eauto.
Qed.

Lemma starts_with_slash_append (a b : string) :
  starts_with_slash a = true -> starts_with_slash (a ++ b) = true.
Proof. destruct a; simpl; auto; discriminate. Qed.

Lemma starts_with_slash_take (n : nat) (s : string) :
  starts_with_slash s = true -> starts_with_slash (LibC.take (S n) s) = true.
Proof. destruct s; simpl; auto. Qed.

Lemma starts_with_slash_take_kBufLen (s : string) :
  starts_with_slash s = true -> starts_with_slash (LibC.take kBufLen s) = true.
Proof. change kBufLen with (S 510). apply starts_with_slash_take. Qed.

Lemma is_relative_starts (s : string) :
  is_relative s = negb (starts_with_slash s).
Proof. destruct s; reflexivity. Qed.

Lemma strncat_Normal (cap : nat) (dest src : string) (n : nat) (r : string) :
  LibC.strncat cap dest src n = Normal r ->
  r = dest ++ LibC.take n src /\ (length r + 1 <= cap)%nat.
Proof.
  unfold LibC.strncat.
  destruct (Nat.leb_spec (length dest + length (LibC.take n src) + 1) cap);
    [|discriminate].
  intros [= <-]; split; [reflexivity|].
  rewrite append_length; lia.
Qed.

Lemma strncat_not_ReturnNull (cap : nat) (dest src : string) (n : nat) :
  LibC.strncat cap dest src n <> ReturnNull.
Proof. unfold LibC.strncat; destruct (_ <=? _)%nat; discriminate. Qed.

Lemma flatten_Normal (buf s : string) :
  flatten buf = Normal s ->
  exists c0 rest, buf = String c0 rest /\ s = String c0 (flatten_from rest).
Proof.
  destruct buf as [|c0 rest]; simpl; [discriminate|].
  intros [= <-]; eauto.
Qed.

Lemma flatten_not_ReturnNull (buf : string) : flatten buf <> ReturnNull.
Proof. destruct buf; discriminate. Qed.

Lemma bind_Normal {A B : Type} (m : outcome A) (k : A -> outcome B) (b : B) :
  bind m k = Normal b -> exists a, m = Normal a /\ k a = Normal b.
Proof. destruct m; simpl; try discriminate; eauto. Qed.

Lemma bind_ReturnNull {A B : Type} (m : outcome A) (k : A -> outcome B) :
  bind m k = ReturnNull ->
  m = ReturnNull \/ exists a, m = Normal a /\ k a = ReturnNull.
Proof. destruct m; simpl; try discriminate; eauto. Qed.

Lemma getcwd_Some (e : env) (size : nat) (d : string) :
  getcwd e size = Some d -> cwd e = Some d /\ (length d + 1 <= size)%nat.
Proof.
  unfold getcwd; destruct (cwd e) as [d'|]; [|discriminate].
  destruct (Nat.leb_spec (length d' + 1) size); [|discriminate].
  intros [= <-]; auto.
Qed.

(** [strncmp] over the length of its second argument is a prefix test. *)
Lemma strncmp_is_prefix (a b : string) :
  LibC.strncmp_is_0 a b (length b) = String.prefix b a.
Proof.
  revert a; induction b as [|y b IH]; intros [|x a]; simpl; try reflexivity.
  rewrite IH.
  destruct (Ascii.eqb_spec x y) as [E|N], (ascii_dec y x) as [E'|N'];
    try reflexivity; congruence.
Qed.

End StringFacts.

Section Scenarios.

Example example_data_app :
  dexOptGenerateCacheFileName (plain_env None None) "/data/app/foo.apk" (Some kClassesDex)
  = Normal (Some "/data/dalvik-cache/data@app@foo.apk@classes.dex").
Proof. reflexivity. Qed.

Example example_system_app :
  dexOptGenerateCacheFileName (plain_env None None) "/system/app/bar.apk" None
  = Normal (Some "/cache/dalvik-cache/system@app@bar.apk").
Proof. reflexivity. Qed.

Example example_relative_dex :
  absoluteFile_of (plain_env (Some "/home/user") None) "foo.dex" None
  = Normal "/home@user@foo.dex".
Proof. reflexivity. Qed.

End Scenarios.

Section Canonical.

(** The buffer handed to the flattening loop begins with what the first
    concatenation put there. *)
Lemma assemble_Normal (e : env) (fileName : string)
    (subFileName : option string) (buf : string) :
  assemble e fileName subFileName = Normal buf ->
  exists first tail,
    (if is_relative fileName
     then exists d, cwd e = Some d /\ first = d ++ "/"
     else first = LibC.take kBufLen fileName)
    /\ buf = first ++ tail.
Proof.
  unfold assemble; intros H.
  apply bind_Normal in H as (a1 & H1 & H).
  apply bind_Normal in H as (a2 & H2 & H3).
  apply strncat_Normal in H2 as [-> _].
  assert (T : exists t, buf = (a1 ++ LibC.take kBufLen fileName) ++ t).
  { destruct subFileName as [sub|].
    - apply bind_Normal in H3 as (a & Ha & H3).
      apply strncat_Normal in Ha as [-> _].
      apply strncat_Normal in H3 as [-> _].
      exists (LibC.take kBufLen "/" ++ LibC.take kBufLen sub).
      rewrite !append_assoc. reflexivity.
    - exists "". rewrite append_empty_r. congruence. }
  destruct T as [t T].
  destruct (is_relative fileName).
  - destruct (getcwd e kBufLen) as [d|] eqn:G; [|discriminate].
    apply getcwd_Some in G as [G _].
    apply strncat_Normal in H1 as [-> _].
    exists (d ++ "/"), (LibC.take kBufLen fileName ++ t).
    split; [eauto|].
    rewrite T, !append_assoc. reflexivity.
  - assert (E : a1 = "") by congruence. subst a1.
    exists (LibC.take kBufLen fileName), t.
    split; [reflexivity | exact T].
Qed.

(** The loop never starts past the terminator: the assembled text has at
    least one character. *)
Lemma assemble_nonempty (e : env) (fileName : string)
    (subFileName : option string) (buf : string) :
  assemble e fileName subFileName = Normal buf -> buf <> "".
Proof.
  intros H. apply assemble_Normal in H as (first & tail & Hf & ->).
  destruct fileName as [|c f].
  - destruct Hf as (d & _ & ->). destruct d; discriminate.
  - destruct (is_relative (String c f)).
    + destruct Hf as (d & _ & ->). destruct d; discriminate.
    + subst first. change kBufLen with (S (kBufLen - 1)).
      rewrite take_cons. discriminate.
Qed.

(** The buffer handed to the flattening loop begins with what the first
    concatenation put there. *)
Lemma absoluteFile_of_Normal (e : env) (fileName : string)
    (subFileName : option string) (s : string) :
  absoluteFile_of e fileName subFileName = Normal s ->
  exists first tail c0 rest,
    (if is_relative fileName
     then exists d, cwd e = Some d /\ first = d ++ "/"
     else first = LibC.take kBufLen fileName)
    /\ first ++ tail = String c0 rest
    /\ s = String c0 (flatten_from rest).
Proof.
  unfold absoluteFile_of; intros H.
  apply bind_Normal in H as (buf & Hb & H).
  apply flatten_Normal in H as (c0 & rest & -> & ->).
  apply assemble_Normal in Hb as (first & tail & Hf & Hb).
  exists first, tail, c0, rest. auto.
Qed.

Lemma absoluteFile_of_absolute (e : env) (rest : string) (subFileName : option string) :
  absoluteFile_of e (String slash rest) subFileName =
  (absoluteFile <-
     (absoluteFile <-
        LibC.strncat sizeof_nameBuf "" (String slash rest) kBufLen ;;
      match subFileName with
      | Some sub =>
          a <- LibC.strncat sizeof_nameBuf absoluteFile "/" kBufLen ;;
          LibC.strncat sizeof_nameBuf a sub kBufLen
      | None => Normal absoluteFile
      end) ;;
   flatten absoluteFile).
Proof. reflexivity. Qed.

(** The text that lines 64-87 leave in [absoluteFile], in terms of the
    arguments: the working directory and a separator for a relative name,
    the name, and a separator and the entry name, each piece cut to
    [kBufLen] characters by its [strncat]. *)
Lemma assemble_text (e : env) (fileName : string)
    (subFileName : option string) (buf : string) :
  assemble e fileName subFileName = Normal buf ->
  exists pre,
    (if is_relative fileName
     then exists d, cwd e = Some d /\ pre = d ++ "/"
     else pre = "")
    /\ buf = pre ++ LibC.take kBufLen fileName
             ++ match subFileName with
                | Some sub => "/" ++ LibC.take kBufLen sub
                | None => ""
                end.
Proof.
  unfold assemble; intros H.
  apply bind_Normal in H as (a1 & H1 & H).
  apply bind_Normal in H as (a2 & H2 & H3).
  apply strncat_Normal in H2 as [-> _].
  exists a1. split.
  - destruct (is_relative fileName).
    + destruct (getcwd e kBufLen) as [d|] eqn:G; [|discriminate].
      apply getcwd_Some in G as [G _].
      apply strncat_Normal in H1 as [-> _]. eauto.
    + congruence.
  - destruct subFileName as [sub|].
    + apply bind_Normal in H3 as (a & Ha & H3).
      apply strncat_Normal in Ha as [-> _].
      apply strncat_Normal in H3 as [-> _].
      change (LibC.take kBufLen "/") with "/".
      rewrite !append_assoc. reflexivity.
    + rewrite append_empty_r. congruence.
Qed.

Lemma get_flatten_from (i : nat) (s : string) :
  String.get i (flatten_from s)
  = option_map (fun c => if Ascii.eqb c slash then at_sign else c) (String.get i s).
Proof.
  revert i; induction s as [|c s IH]; intros [|i]; simpl; auto.
Qed.

(** C6: when the canonical path is produced, it is the assembled text
    (working directory and separator for a relative name, the name, a
    separator and the entry name) with the character at index 0, the
    separator, left as it is and every later separator replaced by '@':
    it has the length of the text, every character after index 0 that is
    not a separator is unchanged, and the separator occurs nowhere after
    index 0.  For a relative name the working directory that [getcwd]
    reports is an absolute pathname. *)
Theorem flattened_has_single_leading_slash (e : env) (fileName : string)
    (subFileName : option string) (s : string) :
  (is_relative fileName = true ->
   forall d, cwd e = Some d -> starts_with_slash d = true) ->
  absoluteFile_of e fileName subFileName = Normal s ->
  exists pre text rest,
    (if is_relative fileName
     then exists d, cwd e = Some d /\ pre = d ++ "/"
     else pre = "")
    /\ text = pre ++ LibC.take kBufLen fileName
              ++ match subFileName with
                 | Some sub => "/" ++ LibC.take kBufLen sub
                 | None => ""
                 end
    /\ s = String slash rest
    /\ occurs slash rest = false
    /\ length s = length text
    /\ String.get 0 text = Some slash
    /\ (forall i c,
          String.get (S i) text = Some c ->
          String.get (S i) s = Some (if Ascii.eqb c slash then at_sign else c)).
Proof.
  intros Hcwd H.
  unfold absoluteFile_of in H.
  apply bind_Normal in H as (buf & Hb & H).
  apply flatten_Normal in H as (c0 & r0 & -> & ->).
  apply assemble_text in Hb as (pre & Hpre & Hb).
  assert (S1 : starts_with_slash (String c0 r0) = true).
  { rewrite Hb. rewrite is_relative_starts in Hpre, Hcwd.
    destruct (starts_with_slash fileName) eqn:A; cbn [negb] in Hpre.
    - subst pre. cbn [append].
      apply starts_with_slash_append.
      apply starts_with_slash_take_kBufLen, A.
    - destruct Hpre as (d & Hd & ->).
      rewrite append_assoc.
      apply starts_with_slash_append. eauto. }
  cbn [starts_with_slash] in S1.
  apply Ascii.eqb_eq in S1; subst c0.
  exists pre, (String slash r0), (flatten_from r0).
  split; [exact Hpre|]. split; [exact Hb|].
  split; [reflexivity|].
  split; [apply flatten_from_no_slash|].
  split; [cbn [length]; now rewrite flatten_from_length|].
  split; [reflexivity|].
  intros i c G. cbn [String.get] in *.
  rewrite get_flatten_from, G. reflexivity.
Qed.

Lemma flattened_has_single_leading_slash_witness :
  exists pre text rest,
    (if is_relative "foo.jar"
     then exists d,
         cwd (plain_env (Some "/home/user") None) = Some d /\ pre = d ++ "/"
     else pre = "")
    /\ text = pre ++ LibC.take kBufLen "foo.jar"
              ++ match Some kClassesDex with
                 | Some sub => "/" ++ LibC.take kBufLen sub
                 | None => ""
                 end
    /\ "/home@user@foo.jar@classes.dex" = String slash rest
    /\ occurs slash rest = false
    /\ length "/home@user@foo.jar@classes.dex" = length text
    /\ String.get 0 text = Some slash
    /\ (forall i c,
          String.get (S i) text = Some c ->
          String.get (S i) "/home@user@foo.jar@classes.dex"
          = Some (if Ascii.eqb c slash then at_sign else c)).
Proof.
  apply (@flattened_has_single_leading_slash
           (plain_env (Some "/home/user") None) "foo.jar" (Some kClassesDex)).
  - intros _ d [= <-]; reflexivity.
  - reflexivity.
Defined.

(** C7, amended: an absolute path of at most 511 characters whose only
    separator is the leading one is its own canonical form. *)
Theorem short_flat_absolute_path_unchanged (e : env) (rest : string) :
  occurs slash rest = false ->
  (length (String slash rest) <= kBufLen)%nat ->
  absoluteFile_of e (String slash rest) None = Normal (String slash rest).
Proof.
  intros Hflat Hlen.
  rewrite absoluteFile_of_absolute.
  unfold LibC.strncat.
  rewrite (take_all _ Hlen).
  change (length "") with 0%nat.
  destruct (Nat.leb_spec (0 + length (String slash rest) + 1) sizeof_nameBuf) as [_|L].
  - cbn [bind append flatten]. now rewrite flatten_from_id.
  - unfold kBufLen, sizeof_nameBuf in *. lia.
Qed.

Lemma short_flat_absolute_path_unchanged_witness :
  absoluteFile_of (plain_env None None) "/foo.dex" None = Normal "/foo.dex".
Proof.
  apply (@short_flat_absolute_path_unchanged (plain_env None None) "foo.dex").
  - reflexivity.
  - unfold kBufLen, sizeof_nameBuf; simpl; lia.
Defined.

(** C7 as stated fails on a path of 512 characters: the separator and
    511 letters come back without the last letter. *)
Lemma long_flat_absolute_path_is_cut :
  occurs slash (replicate 511 "a") = false
  /\ absoluteFile_of (plain_env None None) (String slash (replicate 511 "a")) None
     = Normal (String slash (replicate 510 "a"))
  /\ absoluteFile_of (plain_env None None) (String slash (replicate 511 "a")) None
     <> Normal (String slash (replicate 511 "a")).
Proof.
  split; [vm_compute; reflexivity|].
  split; [vm_compute; reflexivity|].
  vm_compute; discriminate.
Qed.

End Canonical.

Section AbsoluteInput.

Lemma absoluteFile_of_absolute_not_ReturnNull (e : env) (rest : string)
    (subFileName : option string) :
  absoluteFile_of e (String slash rest) subFileName <> ReturnNull.
Proof.
  rewrite absoluteFile_of_absolute; intros H.
  apply bind_ReturnNull in H as [H | (a2 & _ & H)];
    [|now apply flatten_not_ReturnNull in H].
  apply bind_ReturnNull in H as [H | (a1 & _ & H)];
    [now apply strncat_not_ReturnNull in H|].
  destruct subFileName as [sub|]; [|discriminate].
  apply bind_ReturnNull in H as [H | (a & _ & H)];
    now apply strncat_not_ReturnNull in H.
Qed.

Lemma compose_not_ReturnNull (e : env) (absoluteFile : string) :
  compose e absoluteFile <> ReturnNull.
Proof.
  unfold compose; intros H.
  apply bind_ReturnNull in H as [H | (a & _ & H)];
    [now apply strncat_not_ReturnNull in H | discriminate].
Qed.

Lemma compose_None (e : env) (absoluteFile : string) :
  compose e absoluteFile = Normal None -> malloc_ok e = false.
Proof.
  unfold compose; intros H.
  apply bind_Normal in H as (a & _ & H).
  unfold strdup in H. destruct (malloc_ok e); [discriminate | reflexivity].
Qed.

(** C10: on an absolute input the working directory plays no part: the
    result is the same whatever it is, the [return NULL] after [getcwd]
    is not taken, and a null result comes from the final [strdup] only. *)
Theorem absolute_input_never_consults_cwd (e : env) (fileName rest : string)
    (subFileName : option string) :
  fileName = String slash rest ->
  (forall d, dexOptGenerateCacheFileName (with_cwd e d) fileName subFileName
             = dexOptGenerateCacheFileName e fileName subFileName)
  /\ dexOptGenerateCacheFileName e fileName subFileName <> ReturnNull
  /\ (returns_null (dexOptGenerateCacheFileName e fileName subFileName) ->
      malloc_ok e = false).
Proof.
  intros ->.
  assert (NR : dexOptGenerateCacheFileName e (String slash rest) subFileName
               <> ReturnNull).
  { unfold dexOptGenerateCacheFileName; intros H.
    apply bind_ReturnNull in H as [H | (a & _ & H)].
    - now apply absoluteFile_of_absolute_not_ReturnNull in H.
    - now apply compose_not_ReturnNull in H. }
  split; [|split; [exact NR|]].
  - intros d. unfold dexOptGenerateCacheFileName.
    rewrite !absoluteFile_of_absolute. reflexivity.
  - intros [H | H]; [contradiction|].
    unfold dexOptGenerateCacheFileName in H.
    apply bind_Normal in H as (a & _ & H).
    now apply compose_None in H.
Qed.

Lemma absolute_input_never_consults_cwd_witness :
  (forall d, dexOptGenerateCacheFileName
               (with_cwd (plain_env None None) d) "/data/app/foo.apk" None
             = dexOptGenerateCacheFileName
                 (plain_env None None) "/data/app/foo.apk" None)
  /\ dexOptGenerateCacheFileName (plain_env None None) "/data/app/foo.apk" None
     <> ReturnNull
  /\ (returns_null
        (dexOptGenerateCacheFileName (plain_env None None) "/data/app/foo.apk" None) ->
      malloc_ok (plain_env None None) = false).
Proof.
  apply (@absolute_input_never_consults_cwd
           (plain_env None None) "/data/app/foo.apk" "data/app/foo.apk" None).
  reflexivity.
Defined.

(** On a relative input the branch is live: without a working directory
    the function returns at line 73. *)
Example relative_input_needs_cwd :
  dexOptGenerateCacheFileName (plain_env None None) "foo.dex" None = ReturnNull.
Proof. reflexivity. Qed.

End AbsoluteInput.

Section RootSelection.

(** C5: with the cache-only property set to 1 the root is [cacheRoot],
    whatever the path and whatever the data-only property. *)
Theorem cache_only_selects_cacheRoot (e : env) (absoluteFile : string) :
  property_get e "dalvik.vm.dexopt-cache-only" "" = "1" ->
  dexRoot_of e absoluteFile = cacheRoot_of e.
Proof.
  intros H. unfold dexRoot_of. rewrite H. reflexivity.
Qed.

Lemma cache_only_selects_cacheRoot_witness :
  dexRoot_of
    (with_property
       (with_property (plain_env None None) "dalvik.vm.dexopt-data-only" "1")
       "dalvik.vm.dexopt-cache-only" "1")
    "/data@app@foo.apk"
  = "/cache".
Proof.
  apply (@cache_only_selects_cacheRoot
           (with_property
              (with_property (plain_env None None) "dalvik.vm.dexopt-data-only" "1")
              "dalvik.vm.dexopt-cache-only" "1")
           "/data@app@foo.apk").
  reflexivity.
Defined.

End RootSelection.

Section Truncation.

(** An absolute path that does not fit is cut to [kBufLen] characters by
    the one [strncat] that copies it (line 77). *)
Lemma absoluteFile_of_overlong (e : env) (rest : string) :
  (kBufLen <= length rest)%nat ->
  absoluteFile_of e (String slash rest) None
  = Normal (String slash (flatten_from (LibC.take (kBufLen - 1) rest))).
Proof.
  intros Hlen.
  rewrite absoluteFile_of_absolute.
  unfold LibC.strncat.
  change kBufLen with (S (kBufLen - 1)) at 1 2.
  rewrite take_cons.
  change (length "") with 0%nat.
  change (length (String slash (LibC.take (kBufLen - 1) rest)))
    with (S (length (LibC.take (kBufLen - 1) rest))).
  rewrite take_length.
  destruct (Nat.leb_spec (0 + S (Nat.min (kBufLen - 1) (length rest)) + 1)
                         sizeof_nameBuf) as [_|L].
  - reflexivity.
  - unfold kBufLen, sizeof_nameBuf in *. lia.
Qed.

(** The text [dexRoot/dalvik-cache] is cut to [kBufLen - 1] characters by
    [snprintf] (line 135); a flattened path of one character still fits
    behind it. *)
Lemma compose_overlong_root (e : env) :
  (kBufLen - 1 <= length (dexRoot_of e "/" ++ "/" ++ kDexCachePath))%nat ->
  compose e "/"
  = Normal (strdup e (LibC.take (kBufLen - 1)
                        (dexRoot_of e "/" ++ "/" ++ kDexCachePath) ++ "/")).
Proof.
  intros Hlen.
  unfold compose, LibC.snprintf_s_slash_s, LibC.strncat.
  change (LibC.take kBufLen "/") with "/".
  change (length "/") with 1%nat.
  rewrite take_length.
  destruct (Nat.leb_spec
              (Nat.min (kBufLen - 1)
                 (length (dexRoot_of e "/" ++ "/" ++ kDexCachePath)) + 1 + 1)
              sizeof_nameBuf) as [_|L].
  - reflexivity.
  - unfold kBufLen, sizeof_nameBuf in *. lia.
Qed.

(** C3, amended: text that does not fit is cut, not refused.  An absolute
    input path of more than 511 characters with no entry name is answered
    with the flattening of its first 511 characters; a text
    root/dalvik-cache of more than 510 characters is cut to its first 510
    characters, and for the input path "/" the function returns that cut
    text followed by "/". *)
Theorem overlong_text_is_cut_not_refused (e1 e2 : env) (rest : string) :
  (kBufLen < length (String slash rest))%nat ->
  (kBufLen - 1 < length (dexRoot_of e2 "/" ++ "/" ++ kDexCachePath))%nat ->
  absoluteFile_of e1 (String slash rest) None
  = Normal (String slash (flatten_from (LibC.take (kBufLen - 1) rest)))
  /\ dexOptGenerateCacheFileName e2 "/" None
     = Normal (strdup e2 (LibC.take (kBufLen - 1)
                            (dexRoot_of e2 "/" ++ "/" ++ kDexCachePath) ++ "/")).
Proof.
  intros H1 H2; split.
  - apply absoluteFile_of_overlong.
    change (length (String slash rest)) with (S (length rest)) in H1. lia.
  - unfold dexOptGenerateCacheFileName.
    change (absoluteFile_of e2 "/" None) with (Normal (A := string) "/").
    unfold bind. apply compose_overlong_root. lia.
Qed.

Lemma overlong_text_is_cut_not_refused_witness :
  absoluteFile_of (plain_env None None) (String slash (replicate 600 "a")) None
  = Normal (String slash
              (flatten_from (LibC.take (kBufLen - 1) (replicate 600 "a"))))
  /\ dexOptGenerateCacheFileName long_cache_env "/" None
     = Normal (strdup long_cache_env
                 (LibC.take (kBufLen - 1)
                    (dexRoot_of long_cache_env "/" ++ "/" ++ kDexCachePath) ++ "/")).
Proof.
  apply (@overlong_text_is_cut_not_refused
           (plain_env None None) long_cache_env (replicate 600 "a")).
  - vm_compute. lia.
  - vm_compute. lia.
Defined.

(** C3 as stated fails: a path of 601 characters is answered with its
    first 511, and a composed name of 614 characters with 511 of them;
    neither run reports an error. *)
Lemma overlong_input_returns_cut_path :
  (kBufLen < length (String slash (replicate 600 "a")))%nat
  /\ absoluteFile_of (plain_env None None) (String slash (replicate 600 "a")) None
     = Normal (String slash (replicate 510 "a"))
  /\ (kBufLen < length (cacheRoot_of long_cache_env ++ "/" ++ kDexCachePath ++ "/"))%nat
  /\ dexOptGenerateCacheFileName long_cache_env "/" None
     = Normal (Some (String slash (replicate 509 "c") ++ "/")).
Proof.
  split; [vm_compute; lia|].
  split; [vm_compute; reflexivity|].
  split; [vm_compute; lia|].
  vm_compute; reflexivity.
Qed.

End Truncation.

Section UninitialisedRoot.

(** The variable ANDROID_DATA has no effect on the root: [dataRoot] is
    never read after it is set. *)
Lemma dexRoot_of_ignores_ANDROID_DATA (e : env) (v absoluteFile : string) :
  dexRoot_of (with_getenv e "ANDROID_DATA" v) absoluteFile
  = dexRoot_of e absoluteFile.
Proof. reflexivity. Qed.

(** Outside the two overrides the root is what the stack slot held. *)
Lemma dexRoot_of_default (e : env) (absoluteFile : string) :
  LibC.strncmp_is_0 absoluteFile (systemRoot_of e) (length (systemRoot_of e)) = false ->
  LibC.strcmp_is_0 (property_get e "dalvik.vm.dexopt-cache-only" "") "1" = false ->
  dexRoot_of e absoluteFile = or_default (dexRoot_slot e) "/data".
Proof.
  intros H1 H2. unfold dexRoot_of. now rewrite H1, H2.
Qed.

(** C2: [dexRoot] is read (line 118) before anything is stored in it.
    The root follows the stack slot and not ANDROID_DATA: the same call
    in the same environment gives two different names for two contents of
    the slot, and one name for two values of ANDROID_DATA. *)
Theorem dexRoot_read_before_assignment :
  (forall (e : env) (v absoluteFile : string),
      dexRoot_of (with_getenv e "ANDROID_DATA" v) absoluteFile
      = dexRoot_of e absoluteFile)
  /\ dexOptGenerateCacheFileName
       (plain_env None None) "/data/app/foo.apk" None
     = Normal (Some "/data/dalvik-cache/data@app@foo.apk")
  /\ dexOptGenerateCacheFileName
       (plain_env None (Some "/proc/self")) "/data/app/foo.apk" None
     = Normal (Some "/proc/self/dalvik-cache/data@app@foo.apk")
  /\ dexOptGenerateCacheFileName
       (with_getenv (plain_env None None) "ANDROID_DATA" "/mnt/data")
       "/data/app/foo.apk" None
     = Normal (Some "/data/dalvik-cache/data@app@foo.apk").
Proof.
  split; [exact dexRoot_of_ignores_ANDROID_DATA|].
  repeat split; reflexivity.
Qed.

(** C4 at ANDROID_DATA=/mnt/data: the path is not under the system root,
    neither property is set, [dataRoot] is /mnt/data, and the root chosen
    is /data. *)
Theorem root_is_not_dataRoot_when_ANDROID_DATA_is_set :
  let e := with_getenv (plain_env None None) "ANDROID_DATA" "/mnt/data" in
  LibC.strncmp_is_0 "/data@app@foo.apk" (systemRoot_of e) (length (systemRoot_of e))
  = false
  /\ property_get e "dalvik.vm.dexopt-data-only" "" <> "1"
  /\ property_get e "dalvik.vm.dexopt-cache-only" "" <> "1"
  /\ dataRoot_of e = "/mnt/data"
  /\ dexRoot_of e "/data@app@foo.apk" = "/data"
  /\ dexRoot_of e "/data@app@foo.apk" <> dataRoot_of e.
Proof.
  cbv zeta.
  repeat split; try reflexivity; vm_compute; discriminate.
Qed.

(** C9: the flattened path is as the scenario says whatever the slot
    holds; the root and the final name are as it says when the slot holds
    a null pointer, and follow the slot otherwise. *)
Theorem scenario_data_app_follows_stack_slot :
  (forall slot,
      absoluteFile_of (plain_env None slot) "/data/app/foo.apk" (Some kClassesDex)
      = Normal "/data@app@foo.apk@classes.dex")
  /\ dexRoot_of (plain_env None None) "/data@app@foo.apk@classes.dex" = "/data"
  /\ dexOptGenerateCacheFileName
       (plain_env None None) "/data/app/foo.apk" (Some kClassesDex)
     = Normal (Some "/data/dalvik-cache/data@app@foo.apk@classes.dex")
  /\ dexRoot_of (plain_env None (Some "/proc/self")) "/data@app@foo.apk@classes.dex"
     = "/proc/self"
  /\ dexOptGenerateCacheFileName
       (plain_env None (Some "/proc/self")) "/data/app/foo.apk" (Some kClassesDex)
     = Normal (Some "/proc/self/dalvik-cache/data@app@foo.apk@classes.dex").
Proof.
  split; [intros slot; reflexivity|].
  repeat split; reflexivity.
Qed.

End UninitialisedRoot.

Section Overruns.

(** [strncat] is given [kBufLen] as its bound each time, not the room
    left: texts that fit one by one can run past the 512 bytes together.
    Here a flattened path of 500 characters behind /data/dalvik-cache. *)
Example composed_name_overruns_nameBuf :
  absoluteFile_of (plain_env None None) (String slash (replicate 499 "a")) None
  = Normal (String slash (replicate 499 "a"))
  /\ dexOptGenerateCacheFileName
       (plain_env None None) (String slash (replicate 499 "a")) None
     = Overrun.
Proof. split; vm_compute; reflexivity. Qed.

(** A working directory that needs more than 511 bytes makes [getcwd]
    fail, and the function returns at line 73. *)
Example long_cwd_returns_null :
  dexOptGenerateCacheFileName
    (plain_env (Some (String slash (replicate 510 "d"))) None) "foo.dex" None
  = ReturnNull.
Proof. vm_compute; reflexivity. Qed.

End Overruns.

(** * Properties of dexOptCreateEmptyHeader *)

Section HeaderFacts.

Import Header.
Import Strings.Byte.

Local Close Scope string_scope.
Local Open Scope list_scope.
Local Open Scope nat_scope.

Lemma to_N_byte_of_N (n : N) : Byte.to_N (byte_of_N n) = (n mod 256)%N.
Proof.
  unfold byte_of_N.
  destruct (Byte.of_N (n mod 256)) as [b|] eqn:E.
  - now apply Byte.to_of_N in E.
  - apply Byte.of_N_None_iff in E.
    pose proof (N.mod_upper_bound n 256). lia.
Qed.

Lemma u4_bytes_length (be : bool) (v : N) : List.length (u4_bytes be v) = 4.
Proof. unfold u4_bytes; destruct be; reflexivity. Qed.

Lemma u4_value_bytes (be : bool) (v : N) :
  (v < 2 ^ 32)%N -> u4_value be (u4_bytes be v) = v.
Proof.
  intros Hv.
  assert (E : u4_value be (u4_bytes be v)
              = (v mod 256 + 256 * ((v / 256) mod 256
                 + 256 * ((v / 65536) mod 256
                 + 256 * ((v / 16777216) mod 256 + 0))))%N).
  { unfold u4_value, u4_bytes; destruct be; cbn [rev app fold_right];
      now rewrite !to_N_byte_of_N. }
  rewrite E.
  change (2 ^ 32)%N with 4294967296%N in Hv.
  replace (v / 65536)%N with (v / 256 / 256)%N
    by (rewrite N.Div0.div_div; reflexivity).
  replace (v / 16777216)%N with (v / 256 / 256 / 256)%N
    by (rewrite !N.Div0.div_div; reflexivity).
  pose proof (N.Div0.div_mod v 256) as D0.
  pose proof (N.Div0.div_mod (v / 256) 256) as D1.
  pose proof (N.Div0.div_mod (v / 256 / 256) 256) as D2.
  pose proof (N.Div0.div_mod (v / 256 / 256 / 256) 256) as D3.
  assert (Z3 : (v / 256 / 256 / 256 / 256 = 0)%N).
  { rewrite !N.Div0.div_div. apply N.div_small. exact Hv. }
  rewrite Z3 in D3.
  generalize dependent (v mod 256)%N.
  generalize dependent ((v / 256) mod 256)%N.
  generalize dependent ((v / 256 / 256) mod 256)%N.
  generalize dependent ((v / 256 / 256 / 256) mod 256)%N.
  generalize dependent (v / 256 / 256 / 256)%N.
  generalize dependent (v / 256 / 256)%N.
  generalize dependent (v / 256)%N.
  intros; lia.
Qed.

Lemma nth_repeat_lt (A : Type) (a d : A) (n i : nat) :
  i < n -> nth i (repeat a n) d = a.
Proof.
  revert i; induction n as [|n IH]; intros [|i] H; simpl; try lia; auto.
  apply IH; lia.
Qed.

Lemma firstn_repeat_le (A : Type) (a : A) (n k : nat) :
  k <= n -> firstn k (repeat a n) = repeat a k.
Proof.
  revert k; induction n as [|n IH]; intros [|k] H; simpl; try lia; auto.
  now rewrite IH by lia.
Qed.

Lemma skipn_repeat_le (A : Type) (a : A) (n k : nat) :
  k <= n -> skipn k (repeat a n) = repeat a (n - k).
Proof.
  revert k; induction n as [|n IH]; intros [|k] H; simpl; try lia; auto.
  apply IH; lia.
Qed.

Section Built.

Variables (sizeof_optHdr offsetof_dexOffset : nat) (big_endian : bool).
Hypothesis field_inside : offsetof_dexOffset + 4 <= sizeof_optHdr.

Let optHdr := optHdr_built sizeof_optHdr offsetof_dexOffset big_endian.

(** The record as three runs: sentinel bytes, the field, sentinel bytes. *)
Lemma optHdr_built_shape :
  optHdr
  = repeat xff offsetof_dexOffset
    ++ u4_bytes big_endian (N.of_nat sizeof_optHdr mod 2 ^ 32)
    ++ repeat xff (sizeof_optHdr - (offsetof_dexOffset + 4)).
Proof.
  unfold optHdr, optHdr_built, store_dexOffset, memset_ff.
  rewrite firstn_repeat_le, skipn_repeat_le by lia. reflexivity.
Qed.

Lemma optHdr_built_length : List.length optHdr = sizeof_optHdr.
Proof.
  rewrite optHdr_built_shape.
  rewrite !length_app, !repeat_length, u4_bytes_length. lia.
Qed.

Lemma optHdr_built_sentinel (i : nat) :
  i < sizeof_optHdr ->
  i < offsetof_dexOffset \/ offsetof_dexOffset + 4 <= i ->
  nth i optHdr x00 = xff.
Proof.
  intros Hi Hout. rewrite optHdr_built_shape.
  destruct Hout as [Hlo | Hhi].
  - rewrite app_nth1 by (rewrite repeat_length; lia).
    now apply nth_repeat_lt.
  - rewrite app_nth2 by (rewrite repeat_length; lia).
    rewrite app_nth2 by (rewrite repeat_length, u4_bytes_length; lia).
    rewrite repeat_length, u4_bytes_length.
    apply nth_repeat_lt. lia.
Qed.

Lemma optHdr_built_dexOffset :
  (N.of_nat sizeof_optHdr < 2 ^ 32)%N ->
  load_dexOffset offsetof_dexOffset big_endian optHdr = N.of_nat sizeof_optHdr.
Proof.
  intros Hsz. unfold load_dexOffset. rewrite optHdr_built_shape.
  rewrite skipn_app, repeat_length, Nat.sub_diag.
  rewrite (skipn_all2 (repeat xff offsetof_dexOffset))
    by (rewrite repeat_length; lia).
  cbn [skipn app].
  rewrite firstn_app, u4_bytes_length, Nat.sub_diag.
  rewrite firstn_all2 by (rewrite u4_bytes_length; lia).
  cbn [firstn]. rewrite app_nil_r.
  rewrite N.mod_small by exact Hsz.
  now apply u4_value_bytes.
Qed.

End Built.

Lemma land_7_is_mod_8 (n : nat) :
  (N.land (N.of_nat n) 7 =? 0)%N = (n mod 8 =? 0).
Proof.
  change 7%N with (N.ones 3). rewrite N.land_ones.
  change (2 ^ 3)%N with (N.of_nat 8).
  rewrite <- Nat2N.inj_mod.
  destruct (Nat.eqb_spec (n mod 8) 0) as [E|E].
  - rewrite E. reflexivity.
  - apply N.eqb_neq. lia.
Qed.

End HeaderFacts.

Section HeaderWrite.

Import Header.
Import Strings.Byte.

Local Close Scope string_scope.
Local Open Scope list_scope.
Local Open Scope nat_scope.

Variables (sizeof_optHdr offsetof_dexOffset : nat) (big_endian : bool).

Let optHdr := optHdr_built sizeof_optHdr offsetof_dexOffset big_endian.
Let run := dexOptCreateEmptyHeader sizeof_optHdr offsetof_dexOffset big_endian.

(** Past the two assertions the function makes one call of [write] and
    returns by what that call reports. *)
Lemma run_past_asserts (w : write_result) (st : fd_state) :
  position st = 0 -> sizeof_optHdr mod 8 = 0 ->
  run w st =
  (let (actual, st') := write w st optHdr in
   if negb (actual =? Z.of_nat sizeof_optHdr)%Z
   then (Returned (errno st'), st')
   else (Returned 0%Z, st')).
Proof.
  intros Hpos Hal. unfold run, dexOptCreateEmptyHeader.
  rewrite Hpos, land_7_is_mod_8, Hal. reflexivity.
Qed.

(** C8: at the start of a file, when [write] takes the whole record, the
    function returns 0 after one call of [write] whose buffer has the size
    of the record, holds 0xFF in every byte outside the field [dexOffset]
    and the size of the record in that field; the size is then a multiple
    of 8, for the function stops at its assertion when it is not. *)
Theorem full_write_leaves_stub (st : fd_state) (n : nat) :
  offsetof_dexOffset + 4 <= sizeof_optHdr ->
  (N.of_nat sizeof_optHdr < 2 ^ 32)%N ->
  position st = 0 ->
  sizeof_optHdr <= n ->
  List.length optHdr = sizeof_optHdr
  /\ (forall i, i < sizeof_optHdr ->
                i < offsetof_dexOffset \/ offsetof_dexOffset + 4 <= i ->
                nth i optHdr x00 = xff)
  /\ load_dexOffset offsetof_dexOffset big_endian optHdr = N.of_nat sizeof_optHdr
  /\ (sizeof_optHdr mod 8 = 0 ->
      run (Transfers n) st =
      (Returned 0%Z,
       {| position := sizeof_optHdr;
          contents := write_at 0 optHdr (contents st);
          errno := errno st;
          write_calls := write_calls st ++ [optHdr] |}))
  /\ (sizeof_optHdr mod 8 <> 0 -> run (Transfers n) st = (Aborted, st)).
Proof.
  intros Hin Hsz Hpos Hn.
  pose proof (@optHdr_built_length _ _ big_endian Hin) as Hlen.
  fold optHdr in Hlen.
  split; [exact Hlen|].
  split; [intros i; apply optHdr_built_sentinel; exact Hin|].
  split; [apply optHdr_built_dexOffset; assumption|].
  split.
  - intros Hal. rewrite run_past_asserts by assumption.
    unfold write. rewrite Hlen, Nat.min_r by exact Hn.
    rewrite Z.eqb_refl. cbn [negb].
    rewrite Hpos, (firstn_all2 optHdr) by lia. reflexivity.
  - intros Hal. unfold run, dexOptCreateEmptyHeader.
    rewrite Hpos, land_7_is_mod_8.
    apply Nat.eqb_neq in Hal. rewrite Hal. reflexivity.
Qed.

(** C1 on the code: a short transfer leaves [errno] as it was, and the
    function returns [errno], not the [err] it has just computed. *)
Theorem short_write_returns_stale_errno (st : fd_state) (n : nat) :
  offsetof_dexOffset + 4 <= sizeof_optHdr ->
  position st = 0 ->
  sizeof_optHdr mod 8 = 0 ->
  n < sizeof_optHdr ->
  fst (run (Transfers n) st) = Returned (errno st).
Proof.
  intros Hin Hpos Hal Hn.
  pose proof (@optHdr_built_length _ _ big_endian Hin) as Hlen.
  fold optHdr in Hlen.
  rewrite run_past_asserts by assumption.
  unfold write. rewrite Hlen, Nat.min_l by lia.
  destruct (Z.eqb_spec (Z.of_nat n) (Z.of_nat sizeof_optHdr)) as [E|_];
    [lia | reflexivity].
Qed.

(** A failed [write] is reported by its error number. *)
Lemma failed_write_returns_errno (st : fd_state) (e : Z) :
  position st = 0 ->
  sizeof_optHdr mod 8 = 0 ->
  fst (run (Fails e) st) = Returned e.
Proof.
  intros Hpos Hal.
  rewrite run_past_asserts by assumption.
  unfold write.
  destruct (Z.eqb_spec (-1) (Z.of_nat sizeof_optHdr)) as [E|_];
    [lia | reflexivity].
Qed.

End HeaderWrite.

Section HeaderInstances.

Import Header.
Import Strings.Byte.

Local Close Scope string_scope.
Local Open Scope list_scope.
Local Open Scope nat_scope.

Example full_write_40 :
  fst (dexOptCreateEmptyHeader 40 8 false (Transfers 40) fresh) = Returned 0%Z.
Proof. reflexivity. Qed.

Example field_reads_back_40 :
  load_dexOffset 8 false (optHdr_built 40 8 false) = 40%N.
Proof. reflexivity. Qed.

(** A record of 40 bytes with the field at offset 8, low byte first. *)
Lemma full_write_leaves_stub_witness :
  List.length (optHdr_built 40 8 false) = 40
  /\ (forall i, i < 40 -> i < 8 \/ 8 + 4 <= i ->
                nth i (optHdr_built 40 8 false) x00 = xff)
  /\ load_dexOffset 8 false (optHdr_built 40 8 false) = 40%N
  /\ (40 mod 8 = 0 ->
      dexOptCreateEmptyHeader 40 8 false (Transfers 40) fresh =
      (Returned 0%Z,
       {| position := 40;
          contents := write_at 0 (optHdr_built 40 8 false) (contents fresh);
          errno := errno fresh;
          write_calls := write_calls fresh ++ [optHdr_built 40 8 false] |}))
  /\ (40 mod 8 <> 0 ->
      dexOptCreateEmptyHeader 40 8 false (Transfers 40) fresh = (Aborted, fresh)).
Proof.
  apply (@full_write_leaves_stub 40 8 false fresh 40).
  - lia.
  - reflexivity.
  - reflexivity.
  - lia.
Defined.

(** A transfer of no byte at all with no error pending returns 0. *)
Lemma short_write_returns_stale_errno_witness :
  fst (dexOptCreateEmptyHeader 40 8 false (Transfers 0) fresh) = Returned 0%Z.
Proof.
  apply (@short_write_returns_stale_errno 40 8 false fresh 0).
  - lia.
  - reflexivity.
  - reflexivity.
  - lia.
Defined.

Example short_write_of_10_bytes :
  dexOptCreateEmptyHeader 40 8 false (Transfers 10) fresh
  = (Returned 0%Z,
     {| position := 10;
        contents := repeat xff 8 ++ [x28; x00];
        errno := 0%Z;
        write_calls := [optHdr_built 40 8 false] |}).
Proof. reflexivity. Qed.

End HeaderInstances.

(** * Further properties of dexOptGenerateCacheFileName *)

Section MoreStringFacts.

Lemma flatten_from_app (a b : string) :
  flatten_from (a ++ b) = flatten_from a ++ flatten_from b.
Proof. induction a as [|c a IH]; simpl; [reflexivity | now rewrite IH]. Qed.

Lemma take_app_le (n : nat) (a b : string) :
  (length a <= n)%nat -> LibC.take n (a ++ b) = a ++ LibC.take (n - length a) b.
Proof.
  revert n; induction a as [|c a IH]; intros n H; simpl in *.
  - now rewrite Nat.sub_0_r.
  - destruct n as [|n]; [lia|]. simpl. now rewrite IH by lia.
Qed.

Lemma prefix_app (a b : string) : String.prefix a (a ++ b) = true.
Proof.
  induction a as [|c a IH]; simpl; [now destruct b|].
  destruct (ascii_dec c c); [exact IH | congruence].
Qed.

Lemma prefix_occurs (c : ascii) (a b : string) :
  String.prefix a b = true -> occurs c a = true -> occurs c b = true.
Proof.
  revert b; induction a as [|x a IH]; intros [|y b]; simpl; try discriminate.
  destruct (ascii_dec x y) as [->|_]; [|discriminate].
  intros P O. apply orb_true_iff in O as [O|O].
  - now rewrite O.
  - rewrite (IH _ P O). apply orb_true_r.
Qed.

Lemma occurs_app (c : ascii) (a b : string) :
  occurs c (a ++ b) = occurs c a || occurs c b.
Proof.
  induction a as [|x a IH]; simpl; [reflexivity|].
  now rewrite IH, orb_assoc.
Qed.

(** Flattening tells two texts apart as long as neither holds an '@'. *)
Lemma flatten_from_inj (a b : string) :
  occurs at_sign a = false -> occurs at_sign b = false ->
  flatten_from a = flatten_from b -> a = b.
Proof.
  revert b; induction a as [|x a IH]; intros [|y b]; simpl;
    try discriminate; try reflexivity.
  intros Ha Hb E.
  apply orb_false_elim in Ha as [Hx Ha], Hb as [Hy Hb].
  injection E as E1 E2.
  f_equal; [|now apply IH].
  destruct (Ascii.eqb_spec x slash) as [->|Nx], (Ascii.eqb_spec y slash) as [->|Ny];
    try reflexivity; try assumption.
  - subst y. discriminate Hy.
  - subst x. discriminate Hx.
Qed.

Lemma assemble_length (e : env) (fileName : string)
    (subFileName : option string) (buf : string) :
  assemble e fileName subFileName = Normal buf ->
  (length buf + 1 <= sizeof_nameBuf)%nat.
Proof.
  unfold assemble; intros H.
  apply bind_Normal in H as (a1 & _ & H).
  apply bind_Normal in H as (a2 & H2 & H3).
  apply strncat_Normal in H2 as [_ L2].
  destruct subFileName as [sub|].
  - apply bind_Normal in H3 as (a & _ & H3).
    now apply strncat_Normal in H3 as [_ L3].
  - congruence.
Qed.

Lemma flatten_length (buf s : string) :
  flatten buf = Normal s -> length s = length buf.
Proof.
  intros H. apply flatten_Normal in H as (c0 & rest & -> & ->).
  simpl. now rewrite flatten_from_length.
Qed.

Lemma absoluteFile_of_length (e : env) (fileName : string)
    (subFileName : option string) (s : string) :
  absoluteFile_of e fileName subFileName = Normal s ->
  (1 <= length s <= kBufLen)%nat.
Proof.
  unfold absoluteFile_of; intros H.
  apply bind_Normal in H as (buf & Hb & H).
  pose proof (assemble_length _ _ _ Hb) as L.
  pose proof (flatten_length _ H) as E.
  apply flatten_Normal in H as (c0 & rest & _ & ->).
  rewrite E in *. unfold kBufLen, sizeof_nameBuf in *.
  change (length (String c0 (flatten_from rest)))
    with (S (length (flatten_from rest))) in *. lia.
Qed.

Lemma nameBuf_head_length (e : env) (absoluteFile : string) :
  length (nameBuf_head e absoluteFile)
  = Nat.min (kBufLen - 1)
      (length (dexRoot_of e absoluteFile ++ "/" ++ kDexCachePath)).
Proof. unfold nameBuf_head, LibC.snprintf_s_slash_s. apply take_length. Qed.

(** Lines 135-142 in terms of the lengths. *)
Lemma compose_cases (e : env) (absoluteFile : string) :
  (length absoluteFile <= kBufLen)%nat ->
  compose e absoluteFile =
  if (length (nameBuf_head e absoluteFile) + length absoluteFile <=? kBufLen)%nat
  then Normal (strdup e (nameBuf_head e absoluteFile ++ absoluteFile))
  else Overrun.
Proof.
  intros L. unfold compose, LibC.strncat. fold (nameBuf_head e absoluteFile).
  rewrite (take_all _ L).
  destruct (Nat.leb_spec
              (length (nameBuf_head e absoluteFile) + length absoluteFile + 1)
              sizeof_nameBuf) as [A|A],
           (Nat.leb_spec
              (length (nameBuf_head e absoluteFile) + length absoluteFile)
              kBufLen) as [B|B];
    try reflexivity; unfold kBufLen, sizeof_nameBuf in *; lia.
Qed.

End MoreStringFacts.

Section NameShape.

Lemma strncat_fits (cap : nat) (dest src : string) (n : nat) :
  (length src <= n)%nat ->
  (length dest + length src + 1 <= cap)%nat ->
  LibC.strncat cap dest src n = Normal (dest ++ src).
Proof.
  intros Hn Hc. unfold LibC.strncat. rewrite (take_all _ Hn).
  destruct (Nat.leb_spec (length dest + length src + 1) cap); [reflexivity | lia].
Qed.

Lemma strncat_overruns (cap : nat) (dest src : string) (n : nat) :
  (length src <= n)%nat ->
  (cap < length dest + length src + 1)%nat ->
  LibC.strncat cap dest src n = Overrun.
Proof.
  intros Hn Hc. unfold LibC.strncat. rewrite (take_all _ Hn).
  destruct (Nat.leb_spec (length dest + length src + 1) cap); [lia | reflexivity].
Qed.

Lemma kBufLen_value : kBufLen = 511%nat.
Proof. reflexivity. Qed.

Lemma sizeof_nameBuf_value : sizeof_nameBuf = 512%nat.
Proof. reflexivity. Qed.

(** X1: the outcome of a call follows from the flattened path.  With
    the text of line 135 cut to 510 characters in [nameBuf], the function
    returns the copy of that text followed by the whole flattened path
    (line 139 cuts nothing from it) when the two have at most 511
    characters together, and stores past [nameBuf] otherwise; when no
    flattened path is built, the call ends as lines 64-98 do. *)
Theorem returned_name_shape (e : env) (fileName : string)
    (subFileName : option string) :
  dexOptGenerateCacheFileName e fileName subFileName
  = match absoluteFile_of e fileName subFileName with
    | Normal absoluteFile =>
        if (length (LibC.take (kBufLen - 1)
                      (dexRoot_of e absoluteFile ++ "/" ++ kDexCachePath))
            + length absoluteFile <=? kBufLen)%nat
        then Normal (strdup e (LibC.take (kBufLen - 1)
                                 (dexRoot_of e absoluteFile ++ "/" ++ kDexCachePath)
                               ++ absoluteFile))
        else Overrun
    | ReturnNull => ReturnNull
    | Overrun => Overrun
    end.
Proof.
  unfold dexOptGenerateCacheFileName.
  destruct (absoluteFile_of e fileName subFileName) as [abs| |] eqn:Ha;
    cbn [bind]; try reflexivity.
  pose proof (@absoluteFile_of_length _ _ _ _ Ha) as [_ L].
  apply (@compose_cases e abs L).
Qed.

(** X2: once the flattened path is there, the function stores past
    [nameBuf] exactly when the text of line 135, cut to 510 characters,
    and the flattened path have more than 511 characters together. *)
Theorem overrun_of_nameBuf_iff (e : env) (fileName : string)
    (subFileName : option string) (absoluteFile : string) :
  absoluteFile_of e fileName subFileName = Normal absoluteFile ->
  (dexOptGenerateCacheFileName e fileName subFileName = Overrun
   <-> (kBufLen
        < Nat.min (kBufLen - 1)
            (length (dexRoot_of e absoluteFile ++ "/" ++ kDexCachePath))
          + length absoluteFile)%nat).
Proof.
  intros Ha.
  pose proof (@absoluteFile_of_length _ _ _ _ Ha) as [_ L].
  unfold dexOptGenerateCacheFileName. rewrite Ha. cbn [bind].
  rewrite (@compose_cases e absoluteFile L), <- nameBuf_head_length.
  destruct (Nat.leb_spec (length (nameBuf_head e absoluteFile) + length absoluteFile)
                         kBufLen) as [B|B].
  - split; [discriminate | lia].
  - split; [intros _; exact B | reflexivity].
Qed.

Lemma overrun_of_nameBuf_iff_witness :
  dexOptGenerateCacheFileName
    (plain_env None None) (String slash (replicate 499 "a")) None = Overrun
  <-> (kBufLen
       < Nat.min (kBufLen - 1)
           (length (dexRoot_of (plain_env None None)
                      (String slash (replicate 499 "a")) ++ "/" ++ kDexCachePath))
         + length (String slash (replicate 499 "a")))%nat.
Proof.
  apply (@overrun_of_nameBuf_iff
           (plain_env None None) (String slash (replicate 499 "a")) None
           (String slash (replicate 499 "a"))).
  vm_compute. reflexivity.
Defined.

Lemma assemble_ReturnNull (e : env) (fileName : string) (subFileName : option string) :
  assemble e fileName subFileName = ReturnNull ->
  is_relative fileName = true /\ getcwd e kBufLen = None.
Proof.
  unfold assemble; intros H.
  apply bind_ReturnNull in H as [H | (a1 & _ & H)].
  - destruct (is_relative fileName); [|discriminate].
    destruct (getcwd e kBufLen); [|auto].
    now apply strncat_not_ReturnNull in H.
  - apply bind_ReturnNull in H as [H | (a2 & _ & H)];
      [now apply strncat_not_ReturnNull in H|].
    destruct subFileName as [sub|]; [|discriminate].
    apply bind_ReturnNull in H as [H | (a & _ & H)];
      now apply strncat_not_ReturnNull in H.
Qed.

Lemma getcwd_None_iff (e : env) (size : nat) :
  getcwd e size = None
  <-> (forall d, cwd e = Some d -> (size <= length d)%nat).
Proof.
  unfold getcwd. destruct (cwd e) as [d|].
  - destruct (Nat.leb_spec (length d + 1) size) as [A|A].
    + split; [discriminate|]. intros H. specialize (H d eq_refl). lia.
    + split; [|reflexivity]. intros _ d' [= <-]. lia.
  - split; [discriminate | reflexivity].
Qed.

(** X3: the function returns at line 73 exactly when the file name does
    not begin with a separator and the working directory is unknown or has
    511 characters or more. *)
Theorem early_null_iff (e : env) (fileName : string) (subFileName : option string) :
  dexOptGenerateCacheFileName e fileName subFileName = ReturnNull
  <-> is_relative fileName = true
      /\ (forall d, cwd e = Some d -> (kBufLen <= length d)%nat).
Proof.
  rewrite <- getcwd_None_iff. split.
  - unfold dexOptGenerateCacheFileName; intros H.
    apply bind_ReturnNull in H as [H | (a & _ & H)];
      [|now apply compose_not_ReturnNull in H].
    unfold absoluteFile_of in H.
    apply bind_ReturnNull in H as [H | (a & _ & H)];
      [|now apply flatten_not_ReturnNull in H].
    now apply assemble_ReturnNull in H.
  - intros [R G].
    unfold dexOptGenerateCacheFileName, absoluteFile_of, assemble.
    rewrite R, G. reflexivity.
Qed.

End NameShape.

Section Composition.

Lemma length_cons (c : ascii) (s : string) : length (String c s) = S (length s).
Proof. reflexivity. Qed.

(** Arithmetic on lengths of texts against the two sizes of the buffers. *)
Ltac buf_lia :=
  rewrite ?kBufLen_value, ?sizeof_nameBuf_value, ?append_length in *;
  cbn [length] in *; lia.

Lemma entry_suffix_length (subFileName : option string) :
  length (entry_suffix subFileName)
  = match subFileName with Some sub => S (length sub) | None => 0%nat end.
Proof. destruct subFileName; reflexivity. Qed.

(** Lines 84-87 on a buffer that holds [a]: the entry name goes behind it
    when both fit. *)
Lemma append_entry_fits (a : string) (subFileName : option string) :
  (length a + length (entry_suffix subFileName) <= kBufLen)%nat ->
  match subFileName with
  | Some sub =>
      b <- LibC.strncat sizeof_nameBuf a "/" kBufLen ;;
      LibC.strncat sizeof_nameBuf b sub kBufLen
  | None => Normal a
  end = Normal (a ++ entry_suffix subFileName).
Proof.
  rewrite entry_suffix_length.
  destruct subFileName as [sub|]; intros L.
  - rewrite strncat_fits by buf_lia.
    cbn [bind].
    rewrite strncat_fits by buf_lia.
    cbn [entry_suffix]. rewrite append_assoc. reflexivity.
  - now rewrite append_empty_r.
Qed.

Lemma assemble_absolute_fits (e : env) (rest : string) (subFileName : option string) :
  (length (String slash rest ++ entry_suffix subFileName) <= kBufLen)%nat ->
  assemble e (String slash rest) subFileName
  = Normal (String slash rest ++ entry_suffix subFileName).
Proof.
  intros L.
  unfold assemble. change (is_relative (String slash rest)) with false.
  cbv zeta. cbn [bind].
  rewrite strncat_fits by buf_lia.
  cbn [bind]. change ("" ++ String slash rest) with (String slash rest).
  apply append_entry_fits. buf_lia.
Qed.

(** X4: when nothing has to be cut, the name returned for an absolute
    file name is root, "/dalvik-cache", and the file name with its entry
    name, every separator but the first turned into '@'. *)
Theorem absolute_name_that_fits (e : env) (rest : string)
    (subFileName : option string) (flat : string) :
  flat = String slash (flatten_from (rest ++ entry_suffix subFileName)) ->
  (length (dexRoot_of e flat ++ "/" ++ kDexCachePath)
   + length (String slash rest ++ entry_suffix subFileName) <= kBufLen)%nat ->
  dexOptGenerateCacheFileName e (String slash rest) subFileName
  = Normal (strdup e (dexRoot_of e flat ++ "/" ++ kDexCachePath ++ flat)).
Proof.
  intros Hflat L.
  assert (Lf : length flat = length (String slash rest ++ entry_suffix subFileName)).
  { rewrite Hflat. cbn [append]. rewrite !length_cons. now rewrite flatten_from_length. }
  unfold dexOptGenerateCacheFileName, absoluteFile_of.
  rewrite assemble_absolute_fits by lia.
  cbn [bind append flatten]. rewrite <- Hflat.
  rewrite compose_cases by lia.
  assert (Hh : nameBuf_head e flat = dexRoot_of e flat ++ "/" ++ kDexCachePath).
  { unfold nameBuf_head, LibC.snprintf_s_slash_s. apply take_all.
    rewrite (append_length (String slash rest)), length_cons in L.
    rewrite kBufLen_value in *. lia. }
  rewrite Hh.
  destruct (Nat.leb_spec
              (length (dexRoot_of e flat ++ "/" ++ kDexCachePath) + length flat)
              kBufLen) as [_|B]; [|lia].
  now rewrite !append_assoc.
Qed.

Lemma absolute_name_that_fits_witness :
  dexOptGenerateCacheFileName
    (plain_env None None) (String slash "system/framework/core.jar")
    (Some kClassesDex)
  = Normal (Some "/cache/dalvik-cache/system@framework@core.jar@classes.dex").
Proof.
  apply (@absolute_name_that_fits
           (plain_env None None) "system/framework/core.jar" (Some kClassesDex)
           "/system@framework@core.jar@classes.dex").
  - reflexivity.
  - vm_compute. lia.
Defined.

(** X5: a relative file name is read as the working directory, a
    separator and the file name, when these fit in 511 characters. *)
Theorem relative_name_is_resolved_against_cwd (e : env) (d fileName : string)
    (subFileName : option string) :
  cwd e = Some d ->
  starts_with_slash d = true ->
  is_relative fileName = true ->
  (length (d ++ "/" ++ fileName) <= kBufLen)%nat ->
  dexOptGenerateCacheFileName e fileName subFileName
  = dexOptGenerateCacheFileName e (d ++ "/" ++ fileName) subFileName.
Proof.
  intros Hd Hs Hr L.
  rewrite !append_length in L. change (length "/") with 1%nat in L.
  rewrite kBufLen_value in L.
  assert (E : assemble e fileName subFileName
              = assemble e (d ++ "/" ++ fileName) subFileName).
  { unfold assemble. rewrite Hr.
    assert (Ha : is_relative (d ++ "/" ++ fileName) = false).
    { rewrite is_relative_starts, starts_with_slash_append by exact Hs.
      reflexivity. }
    rewrite Ha.
    unfold getcwd. rewrite Hd.
    destruct (Nat.leb_spec (length d + 1) kBufLen) as [_|B];
      [|rewrite kBufLen_value in B; lia].
    cbv zeta.
    rewrite (@strncat_fits sizeof_nameBuf d "/" kBufLen) by buf_lia.
    cbn [bind].
    rewrite (@strncat_fits sizeof_nameBuf (d ++ "/") fileName kBufLen) by buf_lia.
    rewrite (@strncat_fits sizeof_nameBuf "" (d ++ "/" ++ fileName) kBufLen)
      by buf_lia.
    cbn [bind]. rewrite append_assoc. reflexivity. }
  unfold dexOptGenerateCacheFileName, absoluteFile_of. now rewrite E.
Qed.

Lemma relative_name_is_resolved_against_cwd_witness :
  dexOptGenerateCacheFileName (plain_env (Some "/home/user") None) "foo.dex" None
  = dexOptGenerateCacheFileName
      (plain_env (Some "/home/user") None) ("/home/user" ++ "/" ++ "foo.dex") None.
Proof.
  apply (@relative_name_is_resolved_against_cwd
           (plain_env (Some "/home/user") None) "/home/user" "foo.dex" None).
  - reflexivity.
  - reflexivity.
  - reflexivity.
  - vm_compute. lia.
Defined.

End Composition.

Section Collisions.

Lemma take_flatten_from (n : nat) (s : string) :
  flatten_from (LibC.take n s) = LibC.take n (flatten_from s).
Proof.
  revert s; induction n as [|n IH]; intros [|c s]; simpl; try reflexivity.
  now rewrite IH.
Qed.

Lemma take_app_ge (n : nat) (a b : string) :
  (n <= length a)%nat -> LibC.take n (a ++ b) = LibC.take n a.
Proof.
  revert a; induction n as [|n IH]; intros [|c a] H; simpl in *;
    try reflexivity; try lia.
  now rewrite IH by lia.
Qed.

(** Line 77 on an absolute name: the copy always fits, cut to 511
    characters. *)
Lemma first_strncat_absolute (rest : string) :
  LibC.strncat sizeof_nameBuf "" (String slash rest) kBufLen
  = Normal (String slash (LibC.take (kBufLen - 1) rest)).
Proof.
  unfold LibC.strncat.
  change kBufLen with (S (kBufLen - 1)) at 1 2.
  rewrite take_cons, length_cons, take_length.
  destruct (Nat.leb_spec
              (length "" + S (Nat.min (kBufLen - 1) (length rest)) + 1)
              sizeof_nameBuf) as [_|L]; [reflexivity|].
  rewrite kBufLen_value, sizeof_nameBuf_value in L. cbn [length] in L. lia.
Qed.

(** The flattened path of an absolute name without entry name, of any
    length. *)
Lemma absoluteFile_of_absolute_plain (e : env) (rest : string) :
  absoluteFile_of e (String slash rest) None
  = Normal (String slash (flatten_from (LibC.take (kBufLen - 1) rest))).
Proof.
  rewrite absoluteFile_of_absolute, first_strncat_absolute. reflexivity.
Qed.

Lemma same_flattened_path_same_name (e : env) (f1 f2 : string) :
  absoluteFile_of e f1 None = absoluteFile_of e f2 None ->
  dexOptGenerateCacheFileName e f1 None = dexOptGenerateCacheFileName e f2 None.
Proof. unfold dexOptGenerateCacheFileName. now intros ->. Qed.

(** X6: a separator inside an absolute file name and an '@' in its place
    give the same cache file name, whatever stands around them. *)
Theorem separator_and_at_sign_collide (e : env) (a b : string) :
  dexOptGenerateCacheFileName e (String slash (a ++ "/" ++ b)) None
  = dexOptGenerateCacheFileName e (String slash (a ++ "@" ++ b)) None.
Proof.
  apply same_flattened_path_same_name.
  rewrite !absoluteFile_of_absolute_plain, !take_flatten_from, !flatten_from_app.
  reflexivity.
Qed.

(** X7: no call with a file name or an entry name of more than 511
    characters completes inside the buffers.  The [strncat] that copies
    the long piece cuts it to 511 characters, and with the text of line
    135, at least 13 characters, the name no longer fits in [nameBuf]: the
    call stores past one of the two buffers, unless it has returned at
    line 73 before. *)
Theorem overlong_piece_never_stays_in_bounds (e : env) (fileName : string)
    (subFileName : option string) :
  (kBufLen < length fileName)%nat
  \/ (exists sub, subFileName = Some sub /\ (kBufLen < length sub)%nat) ->
  dexOptGenerateCacheFileName e fileName subFileName = Overrun
  \/ dexOptGenerateCacheFileName e fileName subFileName = ReturnNull.
Proof.
  intros Hlong.
  destruct (dexOptGenerateCacheFileName e fileName subFileName)
    as [r| |] eqn:E; [exfalso | now right | now left].
  unfold dexOptGenerateCacheFileName in E.
  apply bind_Normal in E as (abs & Ha & Hc).
  pose proof (@absoluteFile_of_length _ _ _ _ Ha) as [_ L].
  rewrite (@compose_cases e abs L) in Hc.
  destruct (Nat.leb_spec (length (nameBuf_head e abs) + length abs) kBufLen)
    as [B|B]; [|discriminate].
  rewrite nameBuf_head_length, !append_length in B.
  unfold absoluteFile_of in Ha.
  apply bind_Normal in Ha as (buf & Hb & Hf).
  apply flatten_length in Hf. rewrite Hf in *.
  apply assemble_text in Hb as (pre & _ & ->).
  rewrite !append_length, take_length in B.
  rewrite kBufLen_value in *.
  change (length kDexCachePath) with 12%nat in B.
  change (length "/") with 1%nat in B.
  destruct Hlong as [Hf1 | (sub & -> & Hs)].
  - lia.
  - rewrite append_length, take_length in B.
    change (length "/") with 1%nat in B. lia.
Qed.

Lemma overlong_piece_never_stays_in_bounds_witness :
  dexOptGenerateCacheFileName
    (plain_env None None) "/data/app/foo.apk" (Some (replicate 600 "c")) = Overrun
  \/ dexOptGenerateCacheFileName
       (plain_env None None) "/data/app/foo.apk" (Some (replicate 600 "c"))
     = ReturnNull.
Proof.
  apply (@overlong_piece_never_stays_in_bounds
           (plain_env None None) "/data/app/foo.apk" (Some (replicate 600 "c"))).
  right. exists (replicate 600 "c"). split; [reflexivity|]. vm_compute. lia.
Defined.

(** X8: absolute file names of at most 511 characters that hold no '@'
    and come without entry name have different flattened paths when they
    differ. *)
Theorem flattened_path_is_injective_without_at_sign (e1 e2 : env) (r1 r2 : string) :
  (length (String slash r1) <= kBufLen)%nat ->
  (length (String slash r2) <= kBufLen)%nat ->
  occurs at_sign r1 = false ->
  occurs at_sign r2 = false ->
  absoluteFile_of e1 (String slash r1) None = absoluteFile_of e2 (String slash r2) None ->
  r1 = r2.
Proof.
  intros L1 L2 A1 A2 E.
  rewrite !absoluteFile_of_absolute_plain in E.
  rewrite kBufLen_value, length_cons in L1, L2.
  rewrite !take_all in E by (rewrite kBufLen_value; simpl; lia).
  injection E as E. now apply flatten_from_inj.
Qed.

Lemma flattened_path_is_injective_without_at_sign_witness :
  "data/app/foo.apk" = "data/app/foo.apk".
Proof.
  apply (@flattened_path_is_injective_without_at_sign
           (plain_env None None) (plain_env None (Some "/proc/self"))
           "data/app/foo.apk" "data/app/foo.apk").
  - vm_compute. lia.
  - vm_compute. lia.
  - reflexivity.
  - reflexivity.
  - reflexivity.
Defined.

End Collisions.

Section EntryNames.

Lemma strncat_cases (cap : nat) (dest src : string) (n : nat) :
  LibC.strncat cap dest src n
  = if (length dest + Nat.min n (length src) + 1 <=? cap)%nat
    then Normal (dest ++ LibC.take n src)
    else Overrun.
Proof. unfold LibC.strncat. now rewrite take_length. Qed.

Lemma is_relative_append (f x : string) :
  f <> "" -> is_relative (f ++ x) = is_relative f.
Proof. destruct f; [congruence | reflexivity]. Qed.

(** Lines 77-87 from a buffer that holds [a1]: copying the name and the
    entry name in three steps is copying them joined by a separator in one,
    when the joined text has at most 511 characters. *)
Lemma three_steps_are_one (a1 f sub : string) :
  (length (f ++ "/" ++ sub) <= kBufLen)%nat ->
  (a2 <- LibC.strncat sizeof_nameBuf a1 f kBufLen ;;
   a3 <- LibC.strncat sizeof_nameBuf a2 "/" kBufLen ;;
   LibC.strncat sizeof_nameBuf a3 sub kBufLen)
  = (a2 <- LibC.strncat sizeof_nameBuf a1 (f ++ "/" ++ sub) kBufLen ;;
     Normal a2).
Proof.
  intros L.
  rewrite !append_length, kBufLen_value in L. cbn [length] in L.
  rewrite (strncat_cases _ a1 f), (strncat_cases _ a1 (f ++ "/" ++ sub)).
  rewrite !take_all
    by (rewrite ?append_length, kBufLen_value; cbn [length]; lia).
  rewrite !append_length, kBufLen_value, sizeof_nameBuf_value.
  cbn [length].
  rewrite !Nat.min_r by lia.
  destruct (Nat.leb_spec (length a1 + length f + 1) 512) as [A|A];
    destruct (Nat.leb_spec (length a1 + (length f + (1 + length sub)) + 1) 512)
      as [B|B]; cbn [bind]; try reflexivity; try lia.
  - rewrite (strncat_cases _ (a1 ++ f) "/").
    rewrite append_length. cbn [length]. rewrite Nat.min_r by lia.
    destruct (Nat.leb_spec (length a1 + length f + 1 + 1) 512) as [C|C]; [|lia].
    cbn [bind]. rewrite strncat_cases, !append_length.
    change (LibC.take 511 "/") with "/". cbn [length].
    rewrite Nat.min_r by lia.
    destruct (Nat.leb_spec (length a1 + length f + 1 + length sub + 1) 512)
      as [D|D]; [|lia].
    rewrite (take_all sub) by lia.
    now rewrite !append_assoc.
  - rewrite (strncat_cases _ (a1 ++ f) "/").
    rewrite append_length. cbn [length]. rewrite Nat.min_r by lia.
    destruct (Nat.leb_spec (length a1 + length f + 1 + 1) 512) as [C|C];
      [|reflexivity].
    cbn [bind]. rewrite strncat_cases, !append_length.
    change (LibC.take 511 "/") with "/". cbn [length].
    rewrite Nat.min_r by lia.
    destruct (Nat.leb_spec (length a1 + length f + 1 + length sub + 1) 512)
      as [D|D]; [lia | reflexivity].
Qed.

(** X9: an entry name is the same as a longer file name: the call with
    file name f and entry name s behaves as the call with file name f/s and
    no entry name, when f is not empty and f/s has at most 511 characters. *)
Theorem entry_name_is_a_path_component (e : env) (fileName sub : string) :
  fileName <> "" ->
  (length (fileName ++ "/" ++ sub) <= kBufLen)%nat ->
  dexOptGenerateCacheFileName e fileName (Some sub)
  = dexOptGenerateCacheFileName e (fileName ++ "/" ++ sub) None.
Proof.
  intros Hne L.
  assert (E : assemble e fileName (Some sub)
              = assemble e (fileName ++ "/" ++ sub) None).
  { unfold assemble. rewrite (is_relative_append _ Hne). cbv zeta.
    destruct (if is_relative fileName
              then match getcwd e kBufLen with
                   | Some d => LibC.strncat sizeof_nameBuf d "/" kBufLen
                   | None => ReturnNull
                   end
              else Normal "") as [a1| |]; cbn [bind]; try reflexivity.
    now apply three_steps_are_one. }
  unfold dexOptGenerateCacheFileName, absoluteFile_of. now rewrite E.
Qed.

Lemma entry_name_is_a_path_component_witness :
  dexOptGenerateCacheFileName
    (plain_env None None) "/data/app/foo.apk" (Some kClassesDex)
  = dexOptGenerateCacheFileName
      (plain_env None None) ("/data/app/foo.apk" ++ "/" ++ kClassesDex) None.
Proof.
  apply (@entry_name_is_a_path_component
           (plain_env None None) "/data/app/foo.apk" kClassesDex).
  - discriminate.
  - vm_compute. lia.
Defined.

(** X10: on an absolute file name the first buffer is overrun exactly
    when there is an entry name and the name, cut to 511 characters, a
    separator and the entry name, cut to 511 characters, have more than 511
    characters together. *)
Theorem overrun_of_absoluteFile_iff (e : env) (rest : string)
    (subFileName : option string) :
  absoluteFile_of e (String slash rest) subFileName = Overrun
  <-> exists sub,
        subFileName = Some sub
        /\ (kBufLen
            < Nat.min kBufLen (length (String slash rest)) + 1
              + Nat.min kBufLen (length sub))%nat.
Proof.
  destruct subFileName as [sub|].
  - rewrite absoluteFile_of_absolute, first_strncat_absolute. cbn [bind].
    rewrite (strncat_cases _ _ "/").
    rewrite !length_cons, take_length, kBufLen_value, sizeof_nameBuf_value.
    change (511 - 1)%nat with 510%nat. cbn [length].
    change (Nat.min 511 1) with 1%nat.
    destruct (Nat.leb_spec (S (Nat.min 510 (length rest)) + 1 + 1) 512) as [A|A];
      cbn [bind].
    + rewrite strncat_cases, append_length, length_cons, take_length.
      change (LibC.take 511 "/") with "/". cbn [length].
      destruct (Nat.leb_spec
                  (S (Nat.min 510 (length rest)) + 1
                   + Nat.min 511 (length sub) + 1) 512) as [B|B]; cbn [bind].
      * split; [discriminate|].
        intros (s & [= <-] & H). lia.
      * split; [|reflexivity]. intros _. exists sub. split; [reflexivity | lia].
    + split; [|reflexivity]. intros _. exists sub. split; [reflexivity | lia].
  - rewrite absoluteFile_of_absolute_plain.
    split; [discriminate|]. intros (s & [=] & _).
Qed.

End EntryNames.

Section SystemRoot.

(** X11: the comparison of line 122 is made on the flattened path.  A
    system root with a separator after its first character (such as
    /mnt/system) is therefore the prefix of no flattened path, and unless
    the cache-only property is 1 the root stays what line 118 left. *)
Theorem nested_system_root_never_matches (e : env) (fileName : string)
    (subFileName : option string) (absoluteFile : string) (c : ascii) (t : string) :
  systemRoot_of e = String c t ->
  occurs slash t = true ->
  absoluteFile_of e fileName subFileName = Normal absoluteFile ->
  LibC.strncmp_is_0 absoluteFile (systemRoot_of e) (length (systemRoot_of e)) = false
  /\ (property_get e "dalvik.vm.dexopt-cache-only" "" <> "1" ->
      dexRoot_of e absoluteFile = or_default (dexRoot_slot e) "/data").
Proof.
  intros Hs Ht Ha.
  assert (N : LibC.strncmp_is_0 absoluteFile (systemRoot_of e)
                (length (systemRoot_of e)) = false).
  { rewrite strncmp_is_prefix, Hs.
    apply absoluteFile_of_Normal in Ha as (first & tail & c0 & rest & _ & _ & ->).
    destruct (String.prefix (String c t) (String c0 (flatten_from rest))) eqn:P;
      [|reflexivity].
    simpl in P. destruct (ascii_dec c c0) as [_|_]; [|discriminate].
    pose proof (prefix_occurs slash _ _ P Ht) as O.
    now rewrite flatten_from_no_slash in O. }
  split; [exact N|].
  intros Hc. apply dexRoot_of_default; [exact N|].
  now apply String.eqb_neq.
Qed.

Lemma nested_system_root_never_matches_witness :
  LibC.strncmp_is_0 "/mnt@system@app@bar.apk"
    (systemRoot_of (with_getenv (plain_env None None) "ANDROID_ROOT" "/mnt/system"))
    (length (systemRoot_of
               (with_getenv (plain_env None None) "ANDROID_ROOT" "/mnt/system")))
  = false
  /\ (property_get (with_getenv (plain_env None None) "ANDROID_ROOT" "/mnt/system")
        "dalvik.vm.dexopt-cache-only" "" <> "1" ->
      dexRoot_of (with_getenv (plain_env None None) "ANDROID_ROOT" "/mnt/system")
        "/mnt@system@app@bar.apk"
      = or_default
          (dexRoot_slot (with_getenv (plain_env None None) "ANDROID_ROOT" "/mnt/system"))
          "/data").
Proof.
  apply (@nested_system_root_never_matches
           (with_getenv (plain_env None None) "ANDROID_ROOT" "/mnt/system")
           "/mnt/system/app/bar.apk" None "/mnt@system@app@bar.apk"
           "/"%char "mnt/system").
  - reflexivity.
  - reflexivity.
  - reflexivity.
Defined.

(** X12: a file name that begins with the text of the system root is
    cached under the cache root, unless the data-only property is 1.  The
    system root is a separator followed by characters other than the
    separator, at most 511 in all; the match is on characters, so
    /systemic/x.apk counts as being under /system. *)
Theorem name_under_system_root_goes_to_cacheRoot (e : env) (t more : string)
    (subFileName : option string) (absoluteFile : string) :
  systemRoot_of e = String slash t ->
  occurs slash t = false ->
  (length (systemRoot_of e) <= kBufLen)%nat ->
  property_get e "dalvik.vm.dexopt-data-only" "" <> "1" ->
  absoluteFile_of e (systemRoot_of e ++ more) subFileName = Normal absoluteFile ->
  dexRoot_of e absoluteFile = cacheRoot_of e.
Proof.
  intros Hs Ht Hl Hd Ha.
  assert (P : LibC.strncmp_is_0 absoluteFile (systemRoot_of e)
                (length (systemRoot_of e)) = true).
  { rewrite strncmp_is_prefix.
    apply absoluteFile_of_Normal in Ha as (first & tail & c0 & rest & Hf & Hb & ->).
    rewrite Hs in *.
    change (is_relative (String slash t ++ more)) with false in Hf.
    cbv iota in Hf. subst first.
    rewrite (take_app_le _ _ Hl) in Hb.
    cbn [append] in Hb. injection Hb as <- <-.
    rewrite !flatten_from_app, (flatten_from_id _ Ht), append_assoc.
    apply (prefix_app (String slash t)). }
  unfold dexRoot_of. cbv zeta. rewrite P.
  apply String.eqb_neq in Hd. unfold LibC.strcmp_is_0. rewrite Hd.
  cbn [negb]. clear Hd.
  destruct (String.eqb _ "1"); reflexivity.
Qed.

Lemma name_under_system_root_goes_to_cacheRoot_witness :
  dexRoot_of (plain_env None None) "/systemic@x.apk" = cacheRoot_of (plain_env None None).
Proof.
  apply (@name_under_system_root_goes_to_cacheRoot
           (plain_env None None) "system" "ic/x.apk" None "/systemic@x.apk").
  - reflexivity.
  - reflexivity.
  - vm_compute. lia.
  - discriminate.
  - reflexivity.
Defined.

End SystemRoot.

(** * Further properties of dexOptCreateEmptyHeader *)

Section HeaderFile.

Import Header.
Import Strings.Byte.

Local Close Scope string_scope.
Local Open Scope list_scope.
Local Open Scope nat_scope.

Lemma write_at_start (data file : list byte) :
  write_at 0 data file = data ++ skipn (List.length data) file.
Proof. reflexivity. Qed.

Lemma load_dexOffset_app (offset : nat) (be : bool) (a b : list byte) :
  offset + 4 <= List.length a ->
  load_dexOffset offset be (a ++ b) = load_dexOffset offset be a.
Proof.
  intros H. unfold load_dexOffset.
  rewrite skipn_app.
  replace (offset - List.length a) with 0 by lia. cbn [skipn].
  rewrite firstn_app.
  replace (4 - List.length (skipn offset a)) with 0
    by (rewrite length_skipn; lia).
  cbn [firstn]. now rewrite app_nil_r.
Qed.

Variables (sizeof_optHdr offsetof_dexOffset : nat) (big_endian : bool).

Let optHdr := optHdr_built sizeof_optHdr offsetof_dexOffset big_endian.
Let run := dexOptCreateEmptyHeader sizeof_optHdr offsetof_dexOffset big_endian.

(** X13: after a call in which [write] takes the whole record, the file
    is the record followed by what the file held beyond the size of the
    record, and the field [dexOffset] read back from the file is the
    offset the descriptor is left at. *)
Theorem file_after_full_write (st : fd_state) (n : nat) :
  offsetof_dexOffset + 4 <= sizeof_optHdr ->
  (N.of_nat sizeof_optHdr < 2 ^ 32)%N ->
  position st = 0 ->
  sizeof_optHdr mod 8 = 0 ->
  sizeof_optHdr <= n ->
  contents (snd (run (Transfers n) st))
  = optHdr ++ skipn sizeof_optHdr (contents st)
  /\ load_dexOffset offsetof_dexOffset big_endian
       (contents (snd (run (Transfers n) st)))
     = N.of_nat (position (snd (run (Transfers n) st))).
Proof.
  intros Hin Hsz Hpos Hal Hn.
  pose proof (@optHdr_built_length _ _ big_endian Hin) as Hlen.
  fold optHdr in Hlen.
  assert (E : run (Transfers n) st =
              (Returned 0%Z,
               {| position := sizeof_optHdr;
                  contents := write_at 0 optHdr (contents st);
                  errno := errno st;
                  write_calls := write_calls st ++ [optHdr] |})).
  { unfold run. rewrite run_past_asserts by assumption. fold optHdr.
    unfold write. rewrite Hlen, Nat.min_r by exact Hn.
    rewrite Z.eqb_refl. cbn [negb].
    rewrite Hpos, (firstn_all2 optHdr) by lia. reflexivity. }
  rewrite E. cbn [snd contents position].
  rewrite write_at_start, Hlen. split; [reflexivity|].
  rewrite load_dexOffset_app by lia.
  now apply optHdr_built_dexOffset.
Qed.

(** X14: a call in which [write] takes only [n] bytes, fewer than the
    record has, leaves these [n] bytes of the record in the file and the
    descriptor behind them; [write] has been called once. *)
Theorem short_write_leaves_partial_record (st : fd_state) (n : nat) :
  offsetof_dexOffset + 4 <= sizeof_optHdr ->
  position st = 0 ->
  sizeof_optHdr mod 8 = 0 ->
  n < sizeof_optHdr ->
  contents (snd (run (Transfers n) st))
  = firstn n optHdr ++ skipn n (contents st)
  /\ position (snd (run (Transfers n) st)) = n
  /\ write_calls (snd (run (Transfers n) st)) = write_calls st ++ [optHdr].
Proof.
  intros Hin Hpos Hal Hn.
  pose proof (@optHdr_built_length _ _ big_endian Hin) as Hlen.
  fold optHdr in Hlen.
  unfold run. rewrite run_past_asserts by assumption. fold optHdr.
  unfold write. rewrite Hlen, Nat.min_l by lia.
  destruct (Z.eqb_spec (Z.of_nat n) (Z.of_nat sizeof_optHdr)) as [E|_]; [lia|].
  cbn [negb snd contents position write_calls].
  rewrite Hpos, write_at_start, length_firstn, Hlen, Nat.min_l by lia.
  auto.
Qed.

(** X15: when [write] fails, the function returns the error number that
    [write] left in [errno], and the file and the offset are as before. *)
Theorem failed_write_reports_errno (st : fd_state) (e : Z) :
  position st = 0 ->
  sizeof_optHdr mod 8 = 0 ->
  run (Fails e) st =
  (Returned e,
   {| position := position st;
      contents := contents st;
      errno := e;
      write_calls := write_calls st ++ [optHdr] |}).
Proof.
  intros Hpos Hal.
  unfold run. rewrite run_past_asserts by assumption. fold optHdr.
  unfold write.
  destruct (Z.eqb_spec (-1) (Z.of_nat sizeof_optHdr)) as [E|_];
    [lia | reflexivity].
Qed.

(** X16: whatever the state and whatever [write] does, the function
    either stops at an assertion and leaves everything as it was, or calls
    [write] exactly once, with the whole record, and returns. *)
Theorem write_is_called_at_most_once (w : write_result) (st : fd_state) :
  run w st = (Aborted, st)
  \/ exists v st',
       run w st = (Returned v, st')
       /\ write_calls st' = write_calls st ++ [optHdr].
Proof.
  unfold run, dexOptCreateEmptyHeader.
  destruct (negb (position st =? 0)); [now left|].
  destruct (negb (N.land (N.of_nat sizeof_optHdr) 7 =? 0)%N); [now left|].
  right. fold optHdr.
  destruct w as [n|e]; cbn [write];
    match goal with
    | |- context [if ?c then _ else _] => destruct c
    end; eexists _, _; split; reflexivity.
Qed.

End HeaderFile.

Section HeaderFileInstances.

Import Header.
Import Strings.Byte.

Local Close Scope string_scope.
Local Open Scope list_scope.
Local Open Scope nat_scope.

(** A file that already holds 48 bytes. *)
Lemma file_after_full_write_witness :
  contents (snd (dexOptCreateEmptyHeader 40 8 true (Transfers 40) file_of_48_bytes))
  = optHdr_built 40 8 true ++ skipn 40 (contents file_of_48_bytes)
  /\ load_dexOffset 8 true
       (contents (snd (dexOptCreateEmptyHeader 40 8 true (Transfers 40)
                         file_of_48_bytes)))
     = N.of_nat
         (position (snd (dexOptCreateEmptyHeader 40 8 true (Transfers 40)
                           file_of_48_bytes))).
Proof.
  apply (@file_after_full_write 40 8 true file_of_48_bytes 40).
  - lia.
  - reflexivity.
  - reflexivity.
  - reflexivity.
  - lia.
Defined.

Lemma short_write_leaves_partial_record_witness :
  contents (snd (dexOptCreateEmptyHeader 40 8 false (Transfers 10) fresh))
  = firstn 10 (optHdr_built 40 8 false) ++ skipn 10 (contents fresh)
  /\ position (snd (dexOptCreateEmptyHeader 40 8 false (Transfers 10) fresh)) = 10
  /\ write_calls (snd (dexOptCreateEmptyHeader 40 8 false (Transfers 10) fresh))
     = write_calls fresh ++ [optHdr_built 40 8 false].
Proof.
  apply (@short_write_leaves_partial_record 40 8 false fresh 10).
  - lia.
  - reflexivity.
  - reflexivity.
  - lia.
Defined.

Lemma failed_write_reports_errno_witness :
  dexOptCreateEmptyHeader 40 8 false (Fails 28%Z) fresh =
  (Returned 28%Z,
   {| position := position fresh;
      contents := contents fresh;
      errno := 28%Z;
      write_calls := write_calls fresh ++ [optHdr_built 40 8 false] |}).
Proof.
  apply (@failed_write_reports_errno 40 8 false fresh 28%Z).
  - reflexivity.
  - reflexivity.
Defined.

End HeaderFileInstances.
